(** * Tahoe-LAFS client node: a shallow embedding of [allmydata/client.py]

    The development follows the layout of the Python module: Python-level
    helpers first ([str.strip], [int()], truthiness), then the collaborators
    the module imports ([base32], the node configuration, the storage farm
    broker, the node maker), then [SecretHolder], [KeyGenerator] and the
    [_Client] initialisation methods, and finally the properties. *)

From Stdlib Require Import ZArith Ascii String List Bool Lia.
From Stdlib Require Decimal DecimalString DecimalPos DecimalZ.
From stdpp Require Import base option gmap strings list.

Local Open Scope Z_scope.
Local Open Scope string_scope.

(** ** Exceptions and the error monad

    Python exceptions are values of [exn]; a computation that may raise
    returns a [result]. *)

Inductive exn : Type :=
  | ValueError (msg : string)
  | MissingConfigEntry (section option_name : string)
  | OldConfigOptionError (msg : string)
  | UnicodeDecodeError
  | BadPrefixError
  | OtherError (msg : string).

Inductive result (A : Type) : Type :=
  | Ok (a : A)
  | Raise (e : exn).

Arguments Ok {A} a.
Arguments Raise {A} e.

#[global] Instance result_ret : MRet result := fun A a => Ok a.
#[global] Instance result_bind : MBind result := fun A B f m =>
  match m with
  | Ok a => f a
  | Raise e => Raise e
  end.

#[global] Instance result_fmap : FMap result := fun A B f m =>
  match m with
  | Ok a => Ok (f a)
  | Raise e => Raise e
  end.

Definition raises {A} (r : result A) : Prop := ∃ e, r = Raise e.

(** ** Python helpers *)

Module Py.

(** [string.whitespace] of Python 2: space, tab, newline, return,
    vertical tab, form feed. *)
Definition is_space (c : ascii) : bool :=
  match nat_of_ascii c with
  | 32%nat | 9%nat | 10%nat | 13%nat | 11%nat | 12%nat => true
  | _ => false
  end.

Definition is_empty (s : string) : bool :=
  match s with
  | EmptyString => true
  | String _ _ => false
  end.

(** [s.lstrip()] *)
Fixpoint lstrip (s : string) : string :=
  match s with
  | EmptyString => EmptyString
  | String c r => if is_space c then lstrip r else s
  end.

(** [s.rstrip()] *)
Fixpoint rstrip (s : string) : string :=
  match s with
  | EmptyString => EmptyString
  | String c r =>
      let r' := rstrip r in
      if is_empty r' && is_space c then EmptyString else String c r'
  end.

(** [s.strip()] *)
Definition strip (s : string) : string := lstrip (rstrip s).

(** Truthiness of a [str] or of [None]: [not seed] in the source is
    [negb (truthy seed)]. *)
Definition truthy (o : option string) : bool :=
  match o with
  | None => false
  | Some s => negb (is_empty s)
  end.

(** The text of a value known to be a [str]. *)
Definition the_str (o : option string) : string :=
  match o with
  | Some s => s
  | None => EmptyString
  end.

(** Truthiness of an [int] or of [None]. *)
Definition truthy_int (o : option Z) : bool :=
  match o with
  | None => false
  | Some z => negb (Z.eqb z 0)
  end.

(** [x or y] where [x] is an [int] or [None] and [y] an [int]. *)
Definition or_int (x : option Z) (y : Z) : Z :=
  match x with
  | Some z => if truthy_int x then z else y
  | None => y
  end.

Definition digit_val (c : ascii) : option Z :=
  let n := nat_of_ascii c in
  if (48 <=? n)%nat && (n <=? 57)%nat then Some (Z.of_nat n - 48) else None.

Fixpoint digits (s : string) (acc : Z) : option Z :=
  match s with
  | EmptyString => Some acc
  | String c r =>
      match digit_val c with
      | Some d => digits r (10 * acc + d)
      | None => None
      end
  end.

Definition unsigned (s : string) : option Z :=
  if is_empty s then None else digits s 0.

(** [int(s)] for a [str]: surrounding whitespace is ignored, then an
    optional sign and at least one decimal digit; anything else is a
    [ValueError]. *)
Definition int (s : string) : result Z :=
  let t := strip s in
  let v :=
    match t with
    | String "+"%char r => unsigned r
    | String "-"%char r => Z.opp <$> unsigned r
    | _ => unsigned t
    end in
  match v with
  | Some z => Ok z
  | None => Raise (ValueError ("invalid literal for int() with base 10: " +:+ s))
  end.

(** A value that is a [str] or an [int]. *)
Inductive value : Type :=
  | Str (s : string)
  | Int (z : Z).

(** [int(v)]: an [int] is returned as it is. *)
Definition int_ (v : value) : result Z :=
  match v with
  | Str s => int s
  | Int z => Ok z
  end.

Definition newline : string := String (ascii_of_nat 10) EmptyString.

Definition upper_char (c : ascii) : ascii :=
  let n := nat_of_ascii c in
  if (97 <=? n)%nat && (n <=? 122)%nat then ascii_of_nat (n - 32) else c.

(** [s.upper()] *)
Fixpoint upper (s : string) : string :=
  match s with
  | EmptyString => EmptyString
  | String c r => String (upper_char c) (upper r)
  end.

Definition lower_char (c : ascii) : ascii :=
  let n := nat_of_ascii c in
  if (65 <=? n)%nat && (n <=? 90)%nat then ascii_of_nat (n + 32) else c.

(** [s.lower()] *)
Fixpoint lower (s : string) : string :=
  match s with
  | EmptyString => EmptyString
  | String c r => String (lower_char c) (lower r)
  end.

(** [s.startswith(p)] and [s[len(p):]] in one pass. *)
Fixpoint drop_prefix (p s : string) : option string :=
  match p, s with
  | EmptyString, _ => Some s
  | String a p', String b s' => if Ascii.eqb a b then drop_prefix p' s' else None
  | String _ _, EmptyString => None
  end.

Definition all_chars (P : ascii → bool) : string → bool :=
  fix go s :=
    match s with
    | EmptyString => true
    | String c r => P c && go r
    end.

(** [s.split(sep)] for a separator of one character: the pieces between
    the separators, empty pieces included; the empty string gives one empty
    piece. *)
Fixpoint split (sep : ascii) (s : string) : list string :=
  match s with
  | EmptyString => [EmptyString]
  | String c r =>
      if Ascii.eqb c sep then EmptyString :: split sep r
      else
        match split sep r with
        | w :: ws => String c w :: ws
        | [] => [String c EmptyString]
        end
  end.

(** ["{}".format(z)] for an [int]: the decimal digits, after a minus sign
    for a negative number. *)
Definition format_int (z : Z) : string :=
  DecimalString.NilZero.string_of_int (Z.to_int z).

Definition is_ascii (c : ascii) : bool := (nat_of_ascii c <? 128)%nat.

(** [(before + "{}" + after).format(name)] for a byte-string template:
    text with a character above 127 comes from YAML as a unicode string,
    which the template can only take in as ASCII, so that formatting it
    raises [UnicodeEncodeError]. *)
Definition format_name (before name after : string) : result string :=
  if all_chars is_ascii name then Ok (before +:+ name +:+ after)
  else Raise (OtherError "UnicodeEncodeError").

(** [s.encode("ascii")]: the text itself when every character is below
    128, a [UnicodeDecodeError] otherwise. *)
Definition encode_ascii (s : string) : result string :=
  if all_chars is_ascii s then Ok s else Raise UnicodeDecodeError.

End Py.

(** ** [allmydata.util.base32] *)

Module Base32.

(** Modelled from the spec: [allmydata/util/base32.py] is not among the
    sources at hand.  The announcement carries "a base32-encoded
    permutation-seed"; [b2a] is the lower-case RFC 3548 encoding without
    padding: the bytes are read as a bit string, most significant bit
    first, cut into groups of five bits (the last group is filled with
    zero bits) and every group selects one character of [alphabet]. *)
Definition alphabet : string := "abcdefghijklmnopqrstuvwxyz234567".

Definition bits_of_byte (c : ascii) : list bool :=
  let '(Ascii b0 b1 b2 b3 b4 b5 b6 b7) := c in
  [b7; b6; b5; b4; b3; b2; b1; b0].

Fixpoint bits_of_bytes (s : string) : list bool :=
  match s with
  | EmptyString => []
  | String c r => bits_of_byte c ++ bits_of_bytes r
  end.

Definition quintet_index (b4 b3 b2 b1 b0 : bool) : nat :=
  (16 * Nat.b2n b4 + 8 * Nat.b2n b3 + 4 * Nat.b2n b2 + 2 * Nat.b2n b1
   + Nat.b2n b0)%nat.

Definition quintet_char (b4 b3 b2 b1 b0 : bool) : ascii :=
  match String.get (quintet_index b4 b3 b2 b1 b0) alphabet with
  | Some c => c
  | None => "a"%char
  end.

Fixpoint encode_bits (bs : list bool) : string :=
  match bs with
  | [] => EmptyString
  | [b4] => String (quintet_char b4 false false false false) EmptyString
  | [b4; b3] => String (quintet_char b4 b3 false false false) EmptyString
  | [b4; b3; b2] => String (quintet_char b4 b3 b2 false false) EmptyString
  | [b4; b3; b2; b1] => String (quintet_char b4 b3 b2 b1 false) EmptyString
  | b4 :: b3 :: b2 :: b1 :: b0 :: r =>
      String (quintet_char b4 b3 b2 b1 b0) (encode_bits r)
  end.

Definition b2a (os : string) : string := encode_bits (bits_of_bytes os).

End Base32.

(** ** [allmydata.crypto]: the textual form of an Ed25519 verifying key *)

Module Ed25519.

Definition PUBLIC_KEY_PREFIX : string := "pub-v0-".

(** Modelled from the spec: [allmydata/crypto/ed25519.py] is not among the
    sources at hand.  A verifying key is held as its raw bytes; its
    string form is the prefix followed by the base32 text of the bytes. *)
Definition string_from_verifying_key (public_key : string) : string :=
  PUBLIC_KEY_PREFIX +:+ Base32.b2a public_key.

End Ed25519.

(** [allmydata.crypto.util.remove_prefix]: the text after [prefix], or
    [BadPrefixError] when [s_bytes] does not start with it. *)
Definition remove_prefix (s_bytes prefix : string) : result string :=
  match Py.drop_prefix prefix s_bytes with
  | Some rest => Ok rest
  | None => Raise BadPrefixError
  end.

(** ** The node configuration ([allmydata.node._Config]) *)

Module Config.

(** Modelled from the spec: [allmydata/node.py] is not among the sources
    at hand.  A configuration is the parsed [tahoe.cfg] (section and
    option name to raw text) together with the files of the node
    directory and of its [private/] subdirectory. *)
Record t : Type := mk {
  basedir : string;
  entries : gmap (string * string) string;
  files : gmap string string;
  private_files : gmap string string
}.

Definition lookup (cfg : t) (section option_name : string) : option string :=
  entries cfg !! (section, option_name).

(** The scan of [_contains_unescaped_hash]: a backslash protects the
    character after it. *)
Fixpoint contains_unescaped_hash (item : string) : bool :=
  match item with
  | EmptyString => false
  | String c r =>
      if Ascii.eqb c "\"%char then
        match r with
        | EmptyString => false
        | String _ r' => contains_unescaped_hash r'
        end
      else if Ascii.eqb c "#"%char then true
      else contains_unescaped_hash r
  end.

Definition is_furl_option (option_name : string) : bool :=
  match Py.drop_prefix (String.rev ".furl") (String.rev option_name) with
  | Some _ => true
  | None => false
  end.

(** [get_config(section, option, default)] for a text option: the
    configured text, [default] when the entry is missing; an option whose
    name ends in [.furl] is refused when it holds an unescaped [#]. *)
Definition get_config {A} (cfg : t) (section option_name : string)
    (default : A) (found : string → A) : result A :=
  match lookup cfg section option_name with
  | Some item =>
      if is_furl_option option_name && contains_unescaped_hash item
      then Raise (OtherError "UnescapedHashError")
      else Ok (found item)
  | None => Ok default
  end.

(** [get_config(section, option)] without a default. *)
Definition get_config_required (cfg : t) (section option_name : string)
    : result string :=
  match lookup cfg section option_name with
  | Some item =>
      if is_furl_option option_name && contains_unescaped_hash item
      then Raise (OtherError "UnescapedHashError")
      else Ok item
  | None => Raise (MissingConfigEntry section option_name)
  end.

(** [ConfigParser.getboolean]: the text is compared in lower case with the
    eight accepted spellings. *)
Definition getboolean (item : string) : result bool :=
  let v := Py.lower item in
  if String.eqb v "1" || String.eqb v "yes" || String.eqb v "true"
     || String.eqb v "on" then Ok true
  else if String.eqb v "0" || String.eqb v "no" || String.eqb v "false"
     || String.eqb v "off" then Ok false
  else Raise (ValueError ("Not a boolean: " +:+ item)).

(** [get_config(section, option, default, boolean=True)] *)
Definition get_config_bool (cfg : t) (section option_name : string)
    (default : bool) : result bool :=
  match lookup cfg section option_name with
  | Some item => getboolean item
  | None => Ok default
  end.

(** [get_config_from_file(name)]: the stripped contents of the file, or
    [None] when there is no such file. *)
Definition get_config_from_file (cfg : t) (name : string) : option string :=
  Py.strip <$> files cfg !! name.

(** [write_config_file(name, value)] *)
Definition write_config_file (cfg : t) (name value : string) : t :=
  mk (basedir cfg) (entries cfg) (<[name := value]> (files cfg))
     (private_files cfg).

(** [write_private_config(name, value)] *)
Definition write_private_config (cfg : t) (name value : string) : t :=
  mk (basedir cfg) (entries cfg) (files cfg)
     (<[name := value]> (private_files cfg)).

(** [get_config_path(path)] and [get_private_path(path)] *)
Definition get_config_path (cfg : t) (path : string) : string :=
  basedir cfg +:+ "/" +:+ path.

Definition get_private_path (cfg : t) (path : string) : string :=
  basedir cfg +:+ "/private/" +:+ path.

(** Modelled from the spec: [allmydata/node.py] is not among the sources at
    hand.  [get_or_create_private_config(name, default)] with a callable
    [default]: the stripped contents of the private file; when there is no
    such file, [default()] is written to it first. *)
Definition get_or_create_private_config (cfg : t) (name : string)
    (default : string) : string * t :=
  match private_files cfg !! name with
  | Some value => (Py.strip value, cfg)
  | None => (Py.strip default, write_private_config cfg name default)
  end.

End Config.

(** ** Twisted Deferreds

    Only the state of a Deferred matters here: [defer.succeed(x)] builds one
    that has already fired with [x]; [defer.Deferred()] builds one that is
    still waiting for its result. *)

Inductive Deferred (A : Type) : Type :=
  | Succeeded (a : A)
  | Failed (e : exn)
  | Waiting.

Arguments Succeeded {A} a.
Arguments Failed {A} e.
Arguments Waiting {A}.

Module defer.
Definition succeed {A} (a : A) : Deferred A := Succeeded a.
End defer.

(** ** Collaborators imported by [client.py]

    Each class stands for one imported module whose code lies outside
    [client.py]; its members are the functions [client.py] calls. *)

(** [allmydata.util.hashutil] *)
Class Hashutil : Type := {
  my_renewal_secret_hash : string → string;
  my_cancel_secret_hash : string → string
}.

(** [allmydata.crypto.rsa].  Key generation draws fresh randomness: the
    second argument numbers the draw.  Sizes the backend refuses raise. *)
Class Rsa : Type := {
  signing_key : Type;
  verifying_key : Type;
  create_signing_keypair : Z → nat → result (signing_key * verifying_key)
}.

(** [os.urandom] and [base64.urlsafe_b64encode]. *)
Class PythonLibrary : Type := {
  urandom : nat → string;
  urlsafe_b64encode : string → string
}.

(** [os.urandom] as a source of fresh bytes: the first argument numbers
    the draw, so that two calls need not return the same bytes. *)
Class Urandom : Type := {
  os_urandom : nat → nat → string
}.

(** [hashutil.CRYPTO_VAL_SIZE] and [base32.a2b], which raises on text that
    is not base32. *)
Class SecretEncoding : Type := {
  CRYPTO_VAL_SIZE : nat;
  a2b : string → result string
}.

(** [allmydata.__full_version__] *)
Class Allmydata : Type := {
  __full_version__ : string
}.

(** The parsers and decoders used by [init_storage]. *)
Class StorageParsers : Type := {
  parse_abbreviated_size : option string → result (option Z);
  parse_duration : string → result Z;
  parse_date : string → result Z;
  decode_utf8 : string → result string
}.

(** ** [allmydata.storage.server.StorageServer]: the constructor arguments *)

Record StorageServer : Type := {
  storedir : string;
  my_nodeid : string;
  reserved_space : Z;
  discard_storage : bool;
  readonly_storage : bool;
  expiration_enabled : bool;
  expiration_mode : string;
  expiration_override_lease_duration : option Z;
  expiration_cutoff_date : option Z;
  expiration_sharetypes : list string
}.

(** The state outside the process that [init_storage] touches: whether a
    share directory already holds shares ([ss.have_shares()]), and the FURL
    the tub hands out for a registered reference.  The tub also writes that
    FURL, with a newline, to the [furlFile] it is given: the caller records
    the write in the private files of the node. *)
Class StorageEnvironment : Type := {
  have_shares : StorageServer → bool;
  registerReference : StorageServer → string → string
}.

(** A magic folder as [MagicFolder.from_config] builds it. *)
Record MagicFolder : Type := {
  mf_name : string;
  mf_config : string
}.

(** ** [allmydata.storage_client.StorageFarmBroker] *)

Module StorageFarmBroker.

(** What a resumed caller does: the only callback [client.py] attaches is
    [connected_enough], which calls [mf.ready()] on a magic folder. *)
Inductive callback : Type :=
  | connected_enough (mf : MagicFolder).

(** Modelled from the spec: [allmydata/storage_client.py] is not among the
    sources at hand.  [when_connected_enough(threshold)] "suspends caller
    until |connected_servers| ≥ threshold, then resumes": the broker keeps
    the callers that still wait, with their thresholds, and the callers it
    has resumed. *)
Record t : Type := mk {
  connected_servers : Z;
  waiting : list (Z * callback);
  resumed : list (Z * callback)
}.

Definition enough (connected : Z) (l : Z * callback) : bool :=
  Z.leb (fst l) connected.

(** Resume every waiting caller whose threshold is reached. *)
Definition check (sb : t) : t :=
  mk (connected_servers sb)
     (List.filter (λ l, negb (enough (connected_servers sb) l)) (waiting sb))
     (resumed sb ++ List.filter (enough (connected_servers sb)) (waiting sb)).

Definition when_connected_enough (sb : t) (threshold : Z) (cb : callback) : t :=
  check (mk (connected_servers sb) (waiting sb ++ [(threshold, cb)]) (resumed sb)).

(** The set of connected servers changes to one of size [n]. *)
Definition servers_changed (sb : t) (n : Z) : t :=
  check (mk n (waiting sb) (resumed sb)).

Definition has_resumed (sb : t) (cb : callback) : Prop :=
  ∃ threshold, In (threshold, cb) (resumed sb).

(** A caller of [when_connected_enough] that the broker knows of, waiting
    or resumed. *)
Definition registered (sb : t) (l : Z * callback) : Prop :=
  In l (waiting sb) ∨ In l (resumed sb).

(** All callers asked for [threshold] while [connected] servers were
    connected: those below the threshold wait, the others were resumed. *)
Definition uniform (threshold connected : Z) (sb : t) : Prop :=
  connected_servers sb = connected
  ∧ (∀ l, In l (waiting sb) → l.1 = threshold ∧ (connected < threshold)%Z)
  ∧ (∀ l, In l (resumed sb) → l.1 = threshold ∧ (threshold ≤ connected)%Z).

End StorageFarmBroker.

(** ** [allmydata.nodemaker.NodeMaker] *)

Module NodeMaker.

Inductive cap_kind : Type :=
  | immutable_read | immutable_write
  | mutable_read | mutable_write
  | directory_read | directory_write.

Inductive node : Type :=
  | TypedHandle (kind : cap_kind) (cap : string)
  | UnusableNode (write_cap read_cap : option string).

(** The capability grammar ([allmydata.uri]), which tells the tagged form
    of a capability string or that it has none. *)
Class Uri : Type := {
  from_string : string → option cap_kind
}.

Record t : Type := mk {
  mutable_file_default : Z;
  blacklist : string
}.

(** Modelled from the spec: [allmydata/nodemaker.py] is not among the
    sources at hand.  [create_from_capability(write_cap?, read_cap?)]
    "dispatches on the capability's tagged form" and yields a typed
    handle; malformed or unrecognized capability strings "never raise
    outward during dispatch — they yield an explicit unusable node
    value". *)
Definition create_from_cap {uri : Uri} (nm : t) (writecap readcap : option string)
    (deep_immutable : bool) (name : string) : node :=
  let bigcap := if Py.truthy writecap then writecap else readcap in
  match bigcap with
  | Some cap =>
      match from_string cap with
      | Some kind => TypedHandle kind cap
      | None => UnusableNode writecap readcap
      end
  | None => UnusableNode writecap readcap
  end.

End NodeMaker.

(** ** [SecretHolder] *)

Module SecretHolder.

Record t : Type := __init__ {
  _lease_secret : string;
  _convergence_secret : string
}.

Section Methods.
Context {hashutil : Hashutil}.

Definition get_renewal_secret (self : t) : string :=
  my_renewal_secret_hash (_lease_secret self).

Definition get_cancel_secret (self : t) : string :=
  my_cancel_secret_hash (_lease_secret self).

Definition get_convergence_secret (self : t) : string :=
  _convergence_secret self.
End Methods.

End SecretHolder.

(** ** [KeyGenerator] *)

Module KeyGenerator.

Record t : Type := mk {
  default_keysize : Z
}.

Definition __init__ : t := mk 2048.

Definition set_default_keysize (self : t) (keysize : Z) : t := mk keysize.

(** The RSA backend as the generator sees it: the sizes it has been asked
    to generate so far, oldest first.  A call to the backend is over when
    its entry is in the list. *)
Record world : Type := mk_world {
  rsa_calls : list Z
}.

Section Methods.
Context {rsa : Rsa}.

(** The size [generate] hands to the backend: [keysize or
    self.default_keysize]. *)
Definition effective_keysize (self : t) (keysize : option Z) : Z :=
  Py.or_int keysize (default_keysize self).

(** [generate(keysize=None)]: the backend runs inside the call; the
    result is what the method returns (or the exception it raises)
    together with the world it leaves. *)
Definition generate (self : t) (keysize : option Z) (w : world)
    : result (Deferred (verifying_key * signing_key)) * world :=
  let keysize := effective_keysize self keysize in
  let w' := mk_world (rsa_calls w ++ [keysize]) in
  match create_signing_keypair keysize (List.length (rsa_calls w)) with
  | Ok (signer, verifier) => (Ok (defer.succeed (verifier, signer)), w')
  | Raise e => (Raise e, w')
  end.
End Methods.

(** A history of calls on one generator. *)
Inductive call : Type :=
  | call_set_default_keysize (keysize : Z)
  | call_generate (keysize : option Z).

(** The generator after one call: only [set_default_keysize] assigns
    [self.default_keysize]. *)
Definition after (self : t) (c : call) : t :=
  match c with
  | call_set_default_keysize keysize => set_default_keysize self keysize
  | call_generate _ => self
  end.

Definition after_all (self : t) (cs : list call) : t :=
  fold_left after cs self.

(** The argument of the last [set_default_keysize] in a history, if any. *)
Fixpoint last_default (cs : list call) (acc : option Z) : option Z :=
  match cs with
  | [] => acc
  | call_set_default_keysize keysize :: r => last_default r (Some keysize)
  | call_generate _ :: r => last_default r acc
  end.

End KeyGenerator.

(** ** The client node *)

Module EncodingParameters.
(** The dictionary with the keys ["k"], ["happy"], ["n"] and
    ["max_segment_size"]. *)
Record t : Type := mk {
  k : Z;
  happy : Z;
  n : Z;
  max_segment_size : Z
}.
End EncodingParameters.

(** Constants of [allmydata.interfaces]. *)
Class Interfaces : Type := {
  DEFAULT_MAX_SEGMENT_SIZE : Z;
  SDMF_VERSION : Z;
  MDMF_VERSION : Z
}.

Record announcement : Type := {
  anonymous_storage_FURL : string;
  permutation_seed_base32 : string
}.

(** [allmydata.frontends.magic_folder]: the configured folders in the order
    [magic_folders.items()] yields them, and the folder constructor. *)
Class MagicFolderFrontend : Type := {
  load_magic_folders : string → result (list (string * string));
  from_config : string → string → result MagicFolder
}.

(** Child services, in the order of their [setServiceParent(self)]. *)
Inductive service : Type :=
  | service_storage (ss : StorageServer)
  | service_terminator
  | service_uploader (helper_furl : option string)
  | service_magic_folder (mf : MagicFolder).

(** The attributes of [_Client] (and of [node.Node]) that the methods below
    read or assign.  [History], the stats provider and the log carry nothing
    the methods branch on and are left out. *)
Record Client : Type := {
  config : Config.t;
  nodeid : string;
  tub_is_listening : bool;
  _node_public_key : string;
  introducer_clients : list string;
  storage_broker : StorageFarmBroker.t;
  encoding_params : EncodingParameters.t;
  _secret_holder : SecretHolder.t;
  _key_generator : KeyGenerator.t;
  services : list service;
  published : list (string * string * announcement);
  nodemaker : option NodeMaker.t;
  _magic_folders : gmap string MagicFolder
}.

Definition set_config (c : Client) (x : Config.t) : Client :=
  {| config := x; nodeid := nodeid c; tub_is_listening := tub_is_listening c;
     _node_public_key := _node_public_key c;
     introducer_clients := introducer_clients c;
     storage_broker := storage_broker c; encoding_params := encoding_params c;
     _secret_holder := _secret_holder c; _key_generator := _key_generator c;
     services := services c; published := published c;
     nodemaker := nodemaker c; _magic_folders := _magic_folders c |}.

Definition set_storage_broker (c : Client) (x : StorageFarmBroker.t) : Client :=
  {| config := config c; nodeid := nodeid c; tub_is_listening := tub_is_listening c;
     _node_public_key := _node_public_key c;
     introducer_clients := introducer_clients c;
     storage_broker := x; encoding_params := encoding_params c;
     _secret_holder := _secret_holder c; _key_generator := _key_generator c;
     services := services c; published := published c;
     nodemaker := nodemaker c; _magic_folders := _magic_folders c |}.

Definition set_encoding_params (c : Client) (x : EncodingParameters.t) : Client :=
  {| config := config c; nodeid := nodeid c; tub_is_listening := tub_is_listening c;
     _node_public_key := _node_public_key c;
     introducer_clients := introducer_clients c;
     storage_broker := storage_broker c; encoding_params := x;
     _secret_holder := _secret_holder c; _key_generator := _key_generator c;
     services := services c; published := published c;
     nodemaker := nodemaker c; _magic_folders := _magic_folders c |}.

Definition set_key_generator (c : Client) (x : KeyGenerator.t) : Client :=
  {| config := config c; nodeid := nodeid c; tub_is_listening := tub_is_listening c;
     _node_public_key := _node_public_key c;
     introducer_clients := introducer_clients c;
     storage_broker := storage_broker c; encoding_params := encoding_params c;
     _secret_holder := _secret_holder c; _key_generator := x;
     services := services c; published := published c;
     nodemaker := nodemaker c; _magic_folders := _magic_folders c |}.

Definition set_services (c : Client) (x : list service) : Client :=
  {| config := config c; nodeid := nodeid c; tub_is_listening := tub_is_listening c;
     _node_public_key := _node_public_key c;
     introducer_clients := introducer_clients c;
     storage_broker := storage_broker c; encoding_params := encoding_params c;
     _secret_holder := _secret_holder c; _key_generator := _key_generator c;
     services := x; published := published c;
     nodemaker := nodemaker c; _magic_folders := _magic_folders c |}.

Definition set_published (c : Client) (x : list (string * string * announcement))
    : Client :=
  {| config := config c; nodeid := nodeid c; tub_is_listening := tub_is_listening c;
     _node_public_key := _node_public_key c;
     introducer_clients := introducer_clients c;
     storage_broker := storage_broker c; encoding_params := encoding_params c;
     _secret_holder := _secret_holder c; _key_generator := _key_generator c;
     services := services c; published := x;
     nodemaker := nodemaker c; _magic_folders := _magic_folders c |}.

Definition set_nodemaker (c : Client) (x : option NodeMaker.t) : Client :=
  {| config := config c; nodeid := nodeid c; tub_is_listening := tub_is_listening c;
     _node_public_key := _node_public_key c;
     introducer_clients := introducer_clients c;
     storage_broker := storage_broker c; encoding_params := encoding_params c;
     _secret_holder := _secret_holder c; _key_generator := _key_generator c;
     services := services c; published := published c;
     nodemaker := x; _magic_folders := _magic_folders c |}.

Definition set_magic_folders (c : Client) (x : gmap string MagicFolder) : Client :=
  {| config := config c; nodeid := nodeid c; tub_is_listening := tub_is_listening c;
     _node_public_key := _node_public_key c;
     introducer_clients := introducer_clients c;
     storage_broker := storage_broker c; encoding_params := encoding_params c;
     _secret_holder := _secret_holder c; _key_generator := _key_generator c;
     services := services c; published := published c;
     nodemaker := nodemaker c; _magic_folders := x |}.

(** [service.setServiceParent(self)] *)
Definition setServiceParent (s : service) (self : Client) : Client :=
  set_services self (services self ++ [s]).

Definition set_secret_holder (c : Client) (x : SecretHolder.t) : Client :=
  {| config := config c; nodeid := nodeid c; tub_is_listening := tub_is_listening c;
     _node_public_key := _node_public_key c;
     introducer_clients := introducer_clients c;
     storage_broker := storage_broker c; encoding_params := encoding_params c;
     _secret_holder := x; _key_generator := _key_generator c;
     services := services c; published := published c;
     nodemaker := nodemaker c; _magic_folders := _magic_folders c |}.

(** ** Module-level functions: secrets and sequence numbers *)

(** [_make_secret()], with the number of the draw it takes from
    [os.urandom]. *)
Definition _make_secret {rnd : Urandom} {enc : SecretEncoding} (draw : nat)
    : string :=
  Base32.b2a (os_urandom draw CRYPTO_VAL_SIZE) +:+ Py.newline.

(** [_sequencer(config)]: the sequence number and the nonce, and the
    configuration directory as the call leaves it. *)
Definition _sequencer {rnd : Urandom} {enc : SecretEncoding}
    (config : Config.t) (draw : nat) : result ((Z * string) * Config.t) :=
  let seqnum_s := Config.get_config_from_file config "announcement-seqnum" in
  let seqnum_s := if negb (Py.truthy seqnum_s) then "0" else Py.the_str seqnum_s in
  seqnum ← Py.int (Py.strip seqnum_s);
  let seqnum := (seqnum + 1)%Z in
  let config :=
    Config.write_config_file config "announcement-seqnum"
      (Py.format_int seqnum +:+ Py.newline) in
  let nonce := Py.strip (_make_secret draw) in
  Ok ((seqnum, nonce), config).

(** The sections and options this module adds to the common ones. *)
Definition client_config_sections : list (string * list string) :=
  [ ("client",
     ["helper.furl"; "introducer.furl"; "key_generator.furl"; "mutable.format";
      "peers.preferred"; "shares.happy"; "shares.needed"; "shares.total";
      "stats_gatherer.furl"]);
    ("drop_upload", ["enabled"]);
    ("ftpd", ["accounts.file"; "accounts.url"; "enabled"; "port"]);
    ("storage",
     ["debug_discard"; "enabled"; "expire.cutoff_date"; "expire.enabled";
      "expire.immutable"; "expire.mode"; "expire.mode"; "expire.mutable";
      "expire.override_lease_duration"; "readonly"; "reserved_space";
      "storage_dir"]);
    ("sftpd",
     ["accounts.file"; "accounts.url"; "enabled"; "host_privkey_file";
      "host_pubkey_file"; "port"]);
    ("helper", ["enabled"]);
    ("magic_folder",
     ["download.umask"; "enabled"; "local.directory"; "poll_interval"]) ].

(** [_valid_config_sections()]: [cfg.update] lets the sections above
    replace those of the same name in [node._common_config_sections()]. *)
Definition _valid_config_sections (common : gmap string (list string))
    : gmap string (list string) :=
  list_to_map client_config_sections ∪ common.

(** ** The methods of [_Client] *)

Module _Client.

Definition STOREDIR : string := "storage".
Definition OLDEST_SUPPORTED_VERSION : string := "1.0.0".

Section Methods.
Context {hashutil : Hashutil} {rsa : Rsa} {pylib : PythonLibrary}
        {parsers : StorageParsers} {env : StorageEnvironment}
        {ifaces : Interfaces} {frontend : MagicFolderFrontend}
        {uri : NodeMaker.Uri}.

Definition DEFAULT_ENCODING_PARAMETERS : EncodingParameters.t :=
  EncodingParameters.mk 3 7 10 DEFAULT_MAX_SEGMENT_SIZE.

Definition _is_tub_listening (self : Client) : bool :=
  tub_is_listening self.

(** [_init_permutation_seed(ss)]: the seed of the announcement and the
    client with its configuration directory as the call leaves it. *)
Definition _init_permutation_seed (self : Client) (ss : StorageServer)
    : result (string * Client) :=
  let seed := Config.get_config_from_file (config self) "permutation-seed" in
  if negb (Py.truthy seed) then
    seed ←
      (if have_shares ss then Ok (Base32.b2a (nodeid self))
       else
         let vk_string :=
           Ed25519.string_from_verifying_key (_node_public_key self) in
         vk_bytes ← remove_prefix vk_string Ed25519.PUBLIC_KEY_PREFIX;
         Ok (Base32.b2a vk_bytes));
    let self := set_config self
      (Config.write_config_file (config self) "permutation-seed"
         (seed +:+ Py.newline)) in
    Ok (Py.strip seed, self)
  else Ok (Py.strip (Py.the_str seed), self).

(** [ic.publish("storage", ann, key)] for every introducer client. *)
Definition publish_all (self : Client) (ann : announcement) : Client :=
  set_published self
    (published self
     ++ List.map (λ ic, (ic, "storage", ann)) (introducer_clients self)).

Definition init_storage (self : Client) : result Client :=
  let cfg := config self in
  enabled ← Config.get_config_bool cfg "storage" "enabled" true;
  if negb enabled then Ok self
  else if negb (_is_tub_listening self) then
    Raise (ValueError
      "config error: storage is enabled, but tub is not listening ('tub.port=' is empty)")
  else
    readonly ← Config.get_config_bool cfg "storage" "readonly" false;
    raw_storedir ← Config.get_config cfg "storage" "storage_dir" STOREDIR id;
    config_storedir ← decode_utf8 raw_storedir;
    let storedir := Config.get_config_path cfg config_storedir in
    data ← Config.get_config cfg "storage" "reserved_space" None Some;
    reserved ← parse_abbreviated_size data;
    let reserved := match reserved with Some r => r | None => 0 end in
    discard ← Config.get_config_bool cfg "storage" "debug_discard" false;
    expire ← Config.get_config_bool cfg "storage" "expire.enabled" false;
    mode ←
      (if (expire : bool) then Config.get_config_required cfg "storage" "expire.mode"
       else Config.get_config cfg "storage" "expire.mode" "age" id);
    o_l_d ← Config.get_config cfg "storage" "expire.override_lease_duration"
              None Some;
    o_l_d ←
      match o_l_d with
      | Some text => Some <$> parse_duration text
      | None => Ok None
      end;
    cutoff_date ←
      (if String.eqb mode "cutoff-date" then
         text ← Config.get_config_required cfg "storage" "expire.cutoff_date";
         Some <$> parse_date text
       else Ok None);
    let sharetypes : list string := [] in
    immutable ← Config.get_config_bool cfg "storage" "expire.immutable" true;
    let sharetypes :=
      if (immutable : bool) then (sharetypes ++ ["immutable"])%list else sharetypes in
    mutable ← Config.get_config_bool cfg "storage" "expire.mutable" true;
    let sharetypes :=
      if (mutable : bool) then (sharetypes ++ ["mutable"])%list else sharetypes in
    let expiration_sharetypes := sharetypes in
    let ss :=
      {| storedir := storedir; my_nodeid := nodeid self;
         reserved_space := reserved; discard_storage := discard;
         readonly_storage := readonly; expiration_enabled := expire;
         expiration_mode := mode;
         expiration_override_lease_duration := o_l_d;
         expiration_cutoff_date := cutoff_date;
         expiration_sharetypes := expiration_sharetypes |} in
    let self := setServiceParent (service_storage ss) self in
    let furl_file := Config.get_private_path cfg "storage.furl" in
    let furl := registerReference ss furl_file in
    let self := set_config self
      (Config.write_private_config (config self) "storage.furl"
         (furl +:+ Py.newline)) in
    '(seed, self) ← _init_permutation_seed self ss;
    let ann := {| anonymous_storage_FURL := furl;
                  permutation_seed_base32 := seed |} in
    Ok (publish_all self ann).

(** [_create_auth_token()] *)
Definition _create_auth_token (self : Client) : Client :=
  set_config self
    (Config.write_private_config (config self) "api_auth_token"
       (urlsafe_b64encode (urandom 32) +:+ Py.newline)).

(** [init_blacklist()]: the [Blacklist] is known by the path of its file.
    The attribute [self.blacklist] has one reader, [init_nodemaker], which
    is given the value. *)
Definition init_blacklist (self : Client) : string :=
  let fn := Config.get_config_path (config self) "access.blacklist" in
  fn.

Definition init_nodemaker (self : Client) (blacklist : string) : result Client :=
  default ← Config.get_config (config self) "client" "mutable.format" "SDMF" id;
  let mutable_file_default :=
    if String.eqb (Py.upper default) "MDMF" then MDMF_VERSION
    else SDMF_VERSION in
  Ok (set_nodemaker self (Some (NodeMaker.mk mutable_file_default blacklist))).

Definition init_client (self : Client) : result Client :=
  let cfg := config self in
  helper_furl ← Config.get_config cfg "client" "helper.furl" None Some;
  let helper_furl :=
    match helper_furl with
    | Some f => if String.eqb f "None" || String.eqb f "" then None else Some f
    | None => None
    end in
  let DEP := encoding_params self in
  v ← Config.get_config cfg "client" "shares.needed"
        (Py.Int (EncodingParameters.k DEP)) Py.Str;
  needed ← Py.int_ v;
  let DEP := EncodingParameters.mk needed (EncodingParameters.happy DEP)
               (EncodingParameters.n DEP)
               (EncodingParameters.max_segment_size DEP) in
  v ← Config.get_config cfg "client" "shares.total"
        (Py.Int (EncodingParameters.n DEP)) Py.Str;
  total ← Py.int_ v;
  let DEP := EncodingParameters.mk (EncodingParameters.k DEP)
               (EncodingParameters.happy DEP) total
               (EncodingParameters.max_segment_size DEP) in
  v ← Config.get_config cfg "client" "shares.happy"
        (Py.Int (EncodingParameters.happy DEP)) Py.Str;
  happy ← Py.int_ v;
  let DEP := EncodingParameters.mk (EncodingParameters.k DEP) happy
               (EncodingParameters.n DEP)
               (EncodingParameters.max_segment_size DEP) in
  let self := set_encoding_params self DEP in
  let self := _create_auth_token self in
  let self := setServiceParent service_terminator self in
  let self := setServiceParent (service_uploader helper_furl) self in
  let blacklist := init_blacklist self in
  init_nodemaker self blacklist.

Definition get_encoding_parameters (self : Client) : EncodingParameters.t :=
  encoding_params self.

Definition set_default_mutable_keysize (self : Client) (keysize : Z) : Client :=
  set_key_generator self
    (KeyGenerator.set_default_keysize (_key_generator self) keysize).

Definition get_renewal_secret (self : Client) : string :=
  SecretHolder.get_renewal_secret (_secret_holder self).

Definition get_cancel_secret (self : Client) : string :=
  SecretHolder.get_cancel_secret (_secret_holder self).

(** The threshold of [init_magic_folder]. *)
Definition magic_folder_threshold (self : Client) : Z :=
  Z.min (EncodingParameters.k (encoding_params self))
        (EncodingParameters.happy (encoding_params self) + 1).

(** The body of the loop over [magic_folders.items()]. *)
Definition start_magic_folder (threshold : Z) (self : Client)
    (item : string * string) : result Client :=
  let '(name, mf_config) := item in
  s ← from_config name mf_config;
  let self := set_magic_folders self (<[name := s]> (_magic_folders self)) in
  let self := setServiceParent (service_magic_folder s) self in
  Ok (set_storage_broker self
        (StorageFarmBroker.when_connected_enough (storage_broker self)
           threshold (StorageFarmBroker.connected_enough s))).

Fixpoint start_magic_folders (threshold : Z) (self : Client)
    (items : list (string * string)) : result Client :=
  match items with
  | [] => Ok self
  | item :: rest =>
      self ← start_magic_folder threshold self item;
      start_magic_folders threshold self rest
  end.

Definition init_magic_folder (self : Client) : result Client :=
  drop_upload ← Config.get_config_bool (config self) "drop_upload" "enabled" false;
  if (drop_upload : bool) then
    Raise (OldConfigOptionError
      "The [drop_upload] section must be renamed to [magic_folder].")
  else
    enabled ← Config.get_config_bool (config self) "magic_folder" "enabled" false;
    if (enabled : bool) then
      magic_folders ← load_magic_folders (Config.basedir (config self));
      let threshold := magic_folder_threshold self in
      start_magic_folders threshold self magic_folders
    else Ok self.

(** [create_node_from_uri]: whatever [nodemaker.create_from_cap]
    returns.  The attribute [nodemaker] exists once [init_nodemaker]
    has run. *)
Definition create_node_from_uri (self : Client) (write_uri : option string)
    (read_uri : option string) (deep_immutable : bool) (name : string)
    : result NodeMaker.node :=
  match nodemaker self with
  | Some nm =>
      Ok (NodeMaker.create_from_cap nm write_uri read_uri deep_immutable name)
  | None => Raise (OtherError "AttributeError: nodemaker")
  end.

Section Secrets.
Context {rnd : Urandom} {enc : SecretEncoding}.

(** [init_secrets()], with the number of the next draw from [os.urandom];
    the attribute [self.convergence] is the convergence secret of the
    holder. *)
Definition init_secrets (self : Client) (draw : nat) : result Client :=
  let '(lease_s, cfg) :=
    Config.get_or_create_private_config (config self) "secret"
      (_make_secret draw) in
  lease_secret ← a2b lease_s;
  let '(convergence_s, cfg) :=
    Config.get_or_create_private_config cfg "convergence"
      (_make_secret (S draw)) in
  convergence ← a2b convergence_s;
  Ok (set_secret_holder (set_config self cfg)
        (SecretHolder.__init__ lease_secret convergence)).

End Secrets.

End Methods.

End _Client.


(** ** Module-level functions: introducers and the storage farm broker *)

(** What reading [private/introducers.yaml] gives: no such file, a file
    that cannot be opened, an empty document ([safe_load] returns [None]),
    or a mapping, of which only the key ["introducers"] is read: a mapping
    from pet names to entries, an entry holding a ["furl"] or not. *)
Inductive introducers_yaml : Type :=
  | yaml_missing
  | yaml_unreadable
  | yaml_empty
  | yaml_document (introducers : option (gmap string (option string))).

(** The arguments an [IntroducerClient] is built from, but for the tub, the
    application versions and the sequencer, which are the same for all. *)
Record IntroducerClient : Type := {
  introducer_furl : string;
  ic_nickname : string;
  my_version : string;
  oldest_supported : string;
  cache_filepath : string
}.

Fixpoint mapM {A B} (f : A → result B) (l : list A) : result (list B) :=
  match l with
  | [] => Ok []
  | a :: r =>
      b ← f a;
      bs ← mapM f r;
      Ok (b :: bs)
  end.

(** The body of the loop over [introducers.items()]: the name of the cache
    file is formatted first, then the arguments of [IntroducerClient] are
    evaluated. *)
Definition make_introducer_client {app : Allmydata} (config : Config.t)
    (nickname : string) (item : string * option string)
    : result IntroducerClient :=
  let '(petname, introducer) := item in
  cache_name ← Py.format_name "introducer_" petname "_cache.yaml";
  let introducer_cache_filepath := Config.get_private_path config cache_name in
  furl ←
    match introducer with
    | Some furl => Ok furl
    | None => Raise (OtherError "KeyError: 'furl'")
    end;
  furl ← Py.encode_ascii furl;
  Ok {| introducer_furl := furl;
        ic_nickname := nickname;
        my_version := __full_version__;
        oldest_supported := _Client.OLDEST_SUPPORTED_VERSION;
        cache_filepath := introducer_cache_filepath |}.

(** [create_introducer_clients(config, main_tub)]; [yaml] is what opening
    and loading [private/introducers.yaml] gives and [nickname] is
    [config.nickname]. *)
Definition create_introducer_clients {app : Allmydata} (config : Config.t)
    (yaml : introducers_yaml) (nickname : string)
    : result (list IntroducerClient) :=
  introducers ←
    match yaml with
    | yaml_document introducers =>
        Ok (match introducers with Some m => m | None => ∅ end)
    | yaml_empty => Raise (OtherError "EnvironmentError: EPERM")
    | yaml_unreadable => Raise (OtherError "EnvironmentError")
    | yaml_missing => Ok ∅
    end;
  if bool_decide (is_Some ((introducers : gmap string (option string)) !! "default"))
  then
    Raise (ValueError
      "'default' introducer furl cannot be specified in introducers.yaml; please fix impossible configuration.")
  else
    tahoe_cfg_introducer_furl ←
      Config.get_config config "client" "introducer.furl" None Some;
    match tahoe_cfg_introducer_furl with
    | Some furl =>
        if String.eqb furl "None" then
          Raise (ValueError
            "tahoe.cfg has invalid 'introducer.furl = None': to disable it, use 'introducer.furl =' or omit the key entirely")
        else
          let introducers :=
            if Py.truthy tahoe_cfg_introducer_furl
            then <["default" := Some furl]> introducers
            else introducers in
          mapM (make_introducer_client config nickname) (map_to_list introducers)
    | None =>
        mapM (make_introducer_client config nickname) (map_to_list introducers)
    end.

(** The arguments [create_storage_farm_broker] builds the broker from and
    the introducer clients it is told to use. *)
Record StorageFarmBrokerSetup : Type := {
  permute_peers : bool;
  preferred_peers : list string;
  used_introducers : list IntroducerClient
}.

Definition create_storage_farm_broker (config : Config.t)
    (introducer_clients : list IntroducerClient)
    : result StorageFarmBrokerSetup :=
  text ← Config.get_config config "client" "peers.preferred" "" id;
  let ps := Py.split ","%char text in
  let preferred_peers :=
    List.map Py.strip (List.filter (λ p, negb (String.eqb p "")) ps) in
  Ok {| permute_peers := true;
        preferred_peers := preferred_peers;
        used_introducers := introducer_clients |}.

(** ** Sample collaborators and sample nodes

    Concrete instances of the collaborator classes, on which the methods can
    be run. *)

Module Sample.

Definition hashutil : Hashutil :=
  {| my_renewal_secret_hash := λ s, "renewal:" +:+ s;
     my_cancel_secret_hash := λ s, "cancel:" +:+ s |}.

(** Keys are numbers; sizes below 512 bits are refused. *)
Definition rsa : Rsa :=
  {| signing_key := Z;
     verifying_key := Z;
     create_signing_keypair := λ keysize draw,
       if Z.ltb keysize 512 then Raise (ValueError "key size too small")
       else Ok (keysize + Z.of_nat draw, keysize) |}.

Definition python_library : PythonLibrary :=
  {| urandom := λ size, "0123456789abcdef0123456789abcdef";
     urlsafe_b64encode := λ s, s |}.

Definition storage_parsers : StorageParsers :=
  {| parse_abbreviated_size := λ data,
       match data with
       | Some text => Some <$> Py.int text
       | None => Ok None
       end;
     parse_duration := Py.int;
     parse_date := Py.int;
     decode_utf8 := λ s, Ok s |}.

Definition empty_disk : StorageEnvironment :=
  {| have_shares := λ ss, false;
     registerReference := λ ss furl_file, "pb://" +:+ furl_file |}.

Definition used_disk : StorageEnvironment :=
  {| have_shares := λ ss, true;
     registerReference := λ ss furl_file, "pb://" +:+ furl_file |}.

Definition interfaces : Interfaces :=
  {| DEFAULT_MAX_SEGMENT_SIZE := 131072;
     SDMF_VERSION := 0;
     MDMF_VERSION := 1 |}.

Definition one_magic_folder : MagicFolderFrontend :=
  {| load_magic_folders := λ basedir, Ok [("default", "/home/user/sync")];
     from_config := λ name cfg, Ok {| mf_name := name; mf_config := cfg |} |}.

Definition uri : NodeMaker.Uri :=
  {| NodeMaker.from_string := λ cap,
       match Py.drop_prefix "URI:CHK:" cap with
       | Some _ => Some NodeMaker.immutable_read
       | None =>
           match Py.drop_prefix "URI:SSK:" cap with
           | Some _ => Some NodeMaker.mutable_write
           | None => None
           end
       end |}.

Definition tub_id : string := "01234567890123456789".
Definition public_key : string := "0123456789abcdef0123456789abcdef".

Definition storage_server : StorageServer :=
  {| storedir := "/node/storage"; my_nodeid := tub_id;
     reserved_space := 0; discard_storage := false;
     readonly_storage := false; expiration_enabled := false;
     expiration_mode := "age";
     expiration_override_lease_duration := None;
     expiration_cutoff_date := None;
     expiration_sharetypes := ["immutable"; "mutable"] |}.

(** A node before its [init_*] methods have run, with the given parsed
    [tahoe.cfg], files in its directory and listening state. *)
Definition client (entries : list (string * string * string))
    (files : list (string * string)) (listening : bool) : Client :=
  {| config := Config.mk "/node" (list_to_map entries) (list_to_map files) ∅;
     nodeid := tub_id;
     tub_is_listening := listening;
     _node_public_key := public_key;
     introducer_clients := ["introducer"];
     storage_broker := StorageFarmBroker.mk 0 [] [];
     encoding_params :=
       _Client.DEFAULT_ENCODING_PARAMETERS (ifaces := interfaces);
     _secret_holder := SecretHolder.__init__ "lease" "convergence";
     _key_generator := KeyGenerator.__init__;
     services := [];
     published := [];
     nodemaker := None;
     _magic_folders := ∅ |}.

(** Draw number [draw] gives [size] copies of one letter, a different
    letter for each of the first draws. *)
Definition urandom_letters : Urandom :=
  {| os_urandom := λ draw size,
       string_of_list_ascii (repeat (ascii_of_nat (97 + draw)) size) |}.

(** Secrets of four bytes; decoding is stood for by a function that
    accepts the texts without white space. *)
Definition secret_encoding : SecretEncoding :=
  {| CRYPTO_VAL_SIZE := 4;
     a2b := λ text,
       if Py.all_chars (λ c, negb (Py.is_space c)) text then Ok ("bytes of " +:+ text)
       else Raise (ValueError "not base32") |}.


Definition allmydata : Allmydata :=
  {| __full_version__ := "tahoe-lafs/1.13.0" |}.

End Sample.

Definition no_space (c : ascii) : bool := negb (Py.is_space c).

Definition not_comma (c : ascii) : bool := negb (Ascii.eqb c ","%char).

(** [option_name] is a valid option of [section] according to
    [_valid_config_sections()]. *)
Definition declared (common : gmap string (list string))
    (section option_name : string) : Prop :=
  ∃ options,
    _valid_config_sections common !! section = Some options
    ∧ In option_name options.

(** The node with another parsed [tahoe.cfg]. *)
Definition with_entries (self : Client) (entries : gmap (string * string) string)
    : Client :=
  set_config self
    (Config.mk (Config.basedir (config self)) entries
       (Config.files (config self)) (Config.private_files (config self))).

Definition is_digit (c : ascii) : bool :=
  match Py.digit_val c with
  | Some _ => true
  | None => false
  end.

(** The seed a node without a recorded seed chooses: the base32 text of its
    TubID when its share directory holds shares, and otherwise the base32
    text of what follows the prefix in the string form of its public key. *)
Definition fresh_seed {env : StorageEnvironment} (self : Client)
    (ss : StorageServer) : string :=
  if have_shares ss then Base32.b2a (nodeid self)
  else Base32.b2a (Base32.b2a (_node_public_key self)).

(** * Properties *)

(** ** The error monad *)

Lemma bind_Ok_inv {A B} (m : result A) (f : A → result B) (b : B) :
  m ≫= f = Ok b → ∃ a, m = Ok a ∧ f a = Ok b.
Proof. destruct m as [a|e]; simpl; [eauto | discriminate]. Qed.

(** Peel one bind off a computation known to return. *)
Ltac bind_inv H :=
  let a := fresh "a" in
  let Ha := fresh "Ha" in
  apply bind_Ok_inv in H as (a & Ha & H).

Tactic Notation "bind_inv_as" hyp(H) ident(a) ident(Ha) :=
  apply bind_Ok_inv in H as (a & Ha & H).

Lemma fmap_Ok_inv {A B} (m : result A) (f : A → B) (b : B) :
  f <$> m = Ok b → ∃ a, m = Ok a ∧ b = f a.
Proof. destruct m as [a|e]; simpl; [intros [= <-]; eauto | discriminate]. Qed.

(** ** [str.strip] *)

Lemma append_cons (c : ascii) (s t : string) :
  String c s +:+ t = String c (s +:+ t).
Proof. reflexivity. Qed.

Lemma lstrip_idem (s : string) : Py.lstrip (Py.lstrip s) = Py.lstrip s.
Proof.
  induction s as [|c r IH]; simpl; [done|].
  destruct (Py.is_space c) eqn:Hc; [done|].
  simpl. by rewrite Hc.
Qed.

Lemma rstrip_idem (s : string) : Py.rstrip (Py.rstrip s) = Py.rstrip s.
Proof.
  induction s as [|c r IH]; simpl; [done|].
  destruct (Py.is_empty (Py.rstrip r) && Py.is_space c) eqn:Hc; [done|].
  simpl. by rewrite IH, Hc.
Qed.

Lemma rstrip_lstrip (s : string) :
  Py.rstrip (Py.lstrip s) = Py.lstrip (Py.rstrip s).
Proof.
  induction s as [|c r IH]; simpl; [done|].
  destruct (Py.is_space c) eqn:Hc.
  - rewrite IH. destruct (Py.rstrip r) eqn:Hr; simpl; [done|].
    by rewrite Hc.
  - simpl. rewrite Hc, !andb_false_r. simpl. by rewrite Hc.
Qed.

Lemma strip_idem (s : string) : Py.strip (Py.strip s) = Py.strip s.
Proof.
  unfold Py.strip.
  by rewrite rstrip_lstrip, rstrip_idem, lstrip_idem.
Qed.

Lemma rstrip_newline (s : string) : Py.rstrip (s +:+ Py.newline) = Py.rstrip s.
Proof.
  induction s as [|c r IH]; [done|].
  rewrite append_cons. simpl. by rewrite IH.
Qed.

Lemma strip_newline (s : string) : Py.strip (s +:+ Py.newline) = Py.strip s.
Proof. unfold Py.strip. by rewrite rstrip_newline. Qed.

Lemma rstrip_no_space (s : string) :
  Py.all_chars no_space s = true → Py.rstrip s = s.
Proof.
  induction s as [|c r IH]; simpl; [done|].
  intros [Hc Hr]%andb_true_iff. rewrite (IH Hr).
  unfold no_space in Hc. apply negb_true_iff in Hc.
  by rewrite Hc, andb_false_r.
Qed.

Lemma lstrip_no_space (s : string) :
  Py.all_chars no_space s = true → Py.lstrip s = s.
Proof.
  destruct s as [|c r]; simpl; [done|].
  intros [Hc _]%andb_true_iff.
  unfold no_space in Hc. apply negb_true_iff in Hc. by rewrite Hc.
Qed.

Lemma strip_no_space (s : string) :
  Py.all_chars no_space s = true → Py.strip s = s.
Proof.
  intros Hs. unfold Py.strip. by rewrite (rstrip_no_space s Hs), lstrip_no_space.
Qed.

(** ** [base32.b2a] *)

Lemma quintet_char_no_space (b4 b3 b2 b1 b0 : bool) :
  no_space (Base32.quintet_char b4 b3 b2 b1 b0) = true.
Proof. by destruct b4, b3, b2, b1, b0. Qed.

Lemma encode_bits_no_space (bs : list bool) :
  Py.all_chars no_space (Base32.encode_bits bs) = true.
Proof.
  remember (List.length bs) as m eqn:Hm.
  revert bs Hm. induction m as [m IH] using lt_wf_ind. intros bs Hm.
  destruct bs as [|b4 [|b3 [|b2 [|b1 [|b0 r]]]]]; simpl;
    rewrite ?quintet_char_no_space; try done.
  simpl. apply (IH (List.length r)); [|done].
  subst m. simpl. lia.
Qed.

Lemma b2a_no_space (os : string) : Py.all_chars no_space (Base32.b2a os) = true.
Proof. apply encode_bits_no_space. Qed.

Lemma b2a_nonempty (os : string) : os ≠ EmptyString → Base32.b2a os ≠ EmptyString.
Proof.
  destruct os as [|c r]; [done|]. intros _.
  unfold Base32.b2a. destruct c. simpl. discriminate.
Qed.

Lemma strip_b2a (os : string) : Py.strip (Base32.b2a os) = Base32.b2a os.
Proof. apply strip_no_space, b2a_no_space. Qed.

(** ** [SecretHolder] *)

(** C1: the renewal and the cancel secret of a [SecretHolder] are the hashes
    of its lease secret and of nothing else: two holders built from the same
    lease secret, whatever their convergence secrets, return the same
    renewal secret and the same cancel secret, and the client's accessors
    return the hashes of its holder's lease secret. *)
Theorem secret_holder_deterministic {hashutil : Hashutil}
    (lease_secret convergence1 convergence2 : string) (c : Client) :
  let h1 := SecretHolder.__init__ lease_secret convergence1 in
  let h2 := SecretHolder.__init__ lease_secret convergence2 in
  SecretHolder.get_renewal_secret h1 = my_renewal_secret_hash lease_secret
  ∧ SecretHolder.get_cancel_secret h1 = my_cancel_secret_hash lease_secret
  ∧ SecretHolder.get_renewal_secret h1 = SecretHolder.get_renewal_secret h2
  ∧ SecretHolder.get_cancel_secret h1 = SecretHolder.get_cancel_secret h2
  ∧ _Client.get_renewal_secret c
    = my_renewal_secret_hash (SecretHolder._lease_secret (_secret_holder c))
  ∧ _Client.get_cancel_secret c
    = my_cancel_secret_hash (SecretHolder._lease_secret (_secret_holder c)).
Proof. intros h1 h2. by split_and!. Qed.

(** ** [KeyGenerator] *)

Section KeyGeneratorProperties.
Context {rsa : Rsa}.

Lemma generate_calls (self : KeyGenerator.t) (keysize : option Z)
    (w : KeyGenerator.world) :
  KeyGenerator.rsa_calls (KeyGenerator.generate self keysize w).2
  = (KeyGenerator.rsa_calls w
     ++ [KeyGenerator.effective_keysize self keysize])%list.
Proof.
  unfold KeyGenerator.generate.
  by destruct (create_signing_keypair _ _) as [[signer verifier]|e].
Qed.

Lemma last_default_acc (cs : list KeyGenerator.call) (acc : option Z) :
  KeyGenerator.last_default cs acc
  = match KeyGenerator.last_default cs None with
    | Some z => Some z
    | None => acc
    end.
Proof.
  revert acc. induction cs as [|[z|ks] r IH]; intros acc; simpl; [done| |apply IH].
  rewrite (IH (Some z)). by destruct (KeyGenerator.last_default r None).
Qed.

Lemma after_all_default (cs : list KeyGenerator.call) (self : KeyGenerator.t) :
  KeyGenerator.default_keysize (KeyGenerator.after_all self cs)
  = default (KeyGenerator.default_keysize self)
      (KeyGenerator.last_default cs None).
Proof.
  unfold KeyGenerator.after_all.
  revert self. induction cs as [|[z|ks] r IH]; intros self; simpl; [done| |apply IH].
  rewrite IH, (last_default_acc r (Some z)). simpl.
  by destruct (KeyGenerator.last_default r None).
Qed.

(** C4 (as amended): after any history of calls on a fresh generator,
    [generate()] without a keysize asks the backend for 2048 bits when
    [set_default_keysize] was never called and for the argument of its
    most recent call otherwise; [generate(keysize)] with a keysize other
    than 0 asks for exactly that size; and such a call leaves the
    generator, hence the default used by later calls, as it was. *)
Theorem generate_default_and_explicit_keysize (cs : list KeyGenerator.call)
    (z : Z) (w : KeyGenerator.world) :
  z ≠ 0 →
  let self := KeyGenerator.after_all KeyGenerator.__init__ cs in
  let self' :=
    KeyGenerator.after_all KeyGenerator.__init__
      (cs ++ [KeyGenerator.call_generate (Some z)]) in
  KeyGenerator.rsa_calls (KeyGenerator.generate self None w).2
  = (KeyGenerator.rsa_calls w
     ++ [default 2048 (KeyGenerator.last_default cs None)])%list
  ∧ KeyGenerator.rsa_calls (KeyGenerator.generate self (Some z) w).2
    = (KeyGenerator.rsa_calls w ++ [z])%list
  ∧ self' = self
  ∧ KeyGenerator.rsa_calls (KeyGenerator.generate self' None w).2
    = (KeyGenerator.rsa_calls w
       ++ [default 2048 (KeyGenerator.last_default cs None)])%list.
Proof.
  intros Hz self self'.
  assert (self' = self) as Hself.
  { unfold self', self, KeyGenerator.after_all. by rewrite fold_left_app. }
  assert (KeyGenerator.effective_keysize self None
          = default 2048 (KeyGenerator.last_default cs None)) as Hdefault.
  { unfold KeyGenerator.effective_keysize. simpl. unfold self.
    by rewrite after_all_default. }
  split_and!; [| |done|rewrite Hself].
  - by rewrite generate_calls, Hdefault.
  - rewrite generate_calls. unfold KeyGenerator.effective_keysize. simpl.
    by destruct (Z.eqb_spec z 0).
  - by rewrite generate_calls, Hdefault.
Qed.

(** C9: a falsy keysize ([None] or 0) is treated as no keysize at all:
    [generate] does exactly what [generate()] does, it asks the backend for
    a key of the current default size, and what it returns is the key the
    backend made for that size: a Deferred fired with that (verifying key,
    signing key) pair, or the error of the backend if it made none. *)
Theorem generate_falsy_keysize (self : KeyGenerator.t) (keysize : option Z)
    (w : KeyGenerator.world) :
  Py.truthy_int keysize = false →
  KeyGenerator.generate self keysize w = KeyGenerator.generate self None w
  ∧ KeyGenerator.rsa_calls (KeyGenerator.generate self keysize w).2
    = (KeyGenerator.rsa_calls w ++ [KeyGenerator.default_keysize self])%list
  ∧ (KeyGenerator.generate self keysize w).1
    = match create_signing_keypair (KeyGenerator.default_keysize self)
              (List.length (KeyGenerator.rsa_calls w)) with
      | Ok (signer, verifier) => Ok (defer.succeed (verifier, signer))
      | Raise e => Raise e
      end
  ∧ (∀ signer verifier,
       create_signing_keypair (KeyGenerator.default_keysize self)
         (List.length (KeyGenerator.rsa_calls w)) = Ok (signer, verifier) →
       KeyGenerator.generate self keysize w
       = (Ok (Succeeded (verifier, signer)),
          KeyGenerator.mk_world
            (KeyGenerator.rsa_calls w ++ [KeyGenerator.default_keysize self]))).
Proof.
  intros Hfalsy.
  assert (KeyGenerator.effective_keysize self keysize
          = KeyGenerator.default_keysize self) as Hsize.
  { unfold KeyGenerator.effective_keysize, Py.or_int.
    destruct keysize as [z|]; [|done]. by rewrite Hfalsy. }
  split_and!.
  - unfold KeyGenerator.generate. by rewrite Hsize.
  - by rewrite generate_calls, Hsize.
  - unfold KeyGenerator.generate. rewrite Hsize.
    by destruct (create_signing_keypair _ _) as [[signer verifier]|e].
  - intros signer verifier Hkeys. unfold KeyGenerator.generate.
    by rewrite Hsize, Hkeys.
Qed.

(** C8 (as amended): [generate] runs the key generation inside the call.
    When it returns, the backend call is over; if the backend produced a
    key pair the Deferred returned has already fired with (verifying key,
    signing key), and if the backend raised, [generate] raises the same
    exception instead of returning a Deferred. *)
Theorem generate_is_synchronous (self : KeyGenerator.t) (keysize : option Z)
    (w : KeyGenerator.world) :
  let size := KeyGenerator.effective_keysize self keysize in
  let r := KeyGenerator.generate self keysize w in
  KeyGenerator.rsa_calls r.2 = (KeyGenerator.rsa_calls w ++ [size])%list
  ∧ match create_signing_keypair size (List.length (KeyGenerator.rsa_calls w)) with
    | Ok (signer, verifier) => r.1 = Ok (Succeeded (verifier, signer))
    | Raise e => r.1 = Raise e
    end.
Proof.
  intros size r. split; [apply generate_calls|].
  unfold r, KeyGenerator.generate. fold size.
  by destruct (create_signing_keypair _ _) as [[signer verifier]|e].
Qed.

End KeyGeneratorProperties.

Lemma generate_default_and_explicit_keysize_witness :
  (1024 ≠ 0)%Z
  ∧ KeyGenerator.rsa_calls
      (KeyGenerator.generate (rsa := Sample.rsa)
         (KeyGenerator.after_all KeyGenerator.__init__
            [KeyGenerator.call_set_default_keysize 522])
         (Some 1024) (KeyGenerator.mk_world [])).2 = [1024]
  ∧ KeyGenerator.rsa_calls
      (KeyGenerator.generate (rsa := Sample.rsa)
         (KeyGenerator.after_all KeyGenerator.__init__
            [KeyGenerator.call_set_default_keysize 522;
             KeyGenerator.call_generate (Some 1024)])
         None (KeyGenerator.mk_world [])).2 = [522].
Proof.
  assert (1024 ≠ 0)%Z as Hz by lia.
  split; [exact Hz|].
  pose proof (generate_default_and_explicit_keysize (rsa := Sample.rsa)
    [KeyGenerator.call_set_default_keysize 522] 1024
    (KeyGenerator.mk_world []) Hz) as (_ & Hexplicit & _ & Hlater).
  split; [exact Hexplicit | exact Hlater].
Defined.

(** The claim C4 as it is written fails for an explicit keysize of 0: a
    fresh generator asked for a 0-bit key asks the backend for 2048 bits. *)
Lemma generate_explicit_zero_keysize :
  KeyGenerator.rsa_calls
    (KeyGenerator.generate (rsa := Sample.rsa) KeyGenerator.__init__ (Some 0)
       (KeyGenerator.mk_world [])).2 = [2048]
  ∧ ¬ KeyGenerator.rsa_calls
        (KeyGenerator.generate (rsa := Sample.rsa) KeyGenerator.__init__ (Some 0)
           (KeyGenerator.mk_world [])).2 = [0].
Proof. split; [reflexivity | discriminate]. Qed.

Lemma generate_falsy_keysize_witness :
  Py.truthy_int (Some 0) = false
  ∧ KeyGenerator.generate (rsa := Sample.rsa)
      (KeyGenerator.set_default_keysize KeyGenerator.__init__ 522)
      (Some 0) (KeyGenerator.mk_world [])
    = (Ok (Succeeded (522, 522)), KeyGenerator.mk_world [522]).
Proof.
  split; [reflexivity|].
  exact (proj2 (proj2 (proj2 (generate_falsy_keysize (rsa := Sample.rsa)
    (KeyGenerator.set_default_keysize KeyGenerator.__init__ 522) (Some 0)
    (KeyGenerator.mk_world []) eq_refl))) 522 522 eq_refl).
Defined.

(** The claim C8 as it is written fails: when [generate()] returns on a
    fresh generator, the backend has already been called for a 2048-bit key
    and the Deferred has already fired. *)
Lemma generate_blocks_until_key_exists :
  KeyGenerator.generate (rsa := Sample.rsa) KeyGenerator.__init__ None
    (KeyGenerator.mk_world [])
  = (Ok (Succeeded (2048, 2048)), KeyGenerator.mk_world [2048])
  ∧ (KeyGenerator.generate (rsa := Sample.rsa) KeyGenerator.__init__ None
       (KeyGenerator.mk_world [])).2 ≠ KeyGenerator.mk_world []
  ∧ (KeyGenerator.generate (rsa := Sample.rsa) KeyGenerator.__init__ None
       (KeyGenerator.mk_world [])).1 ≠ Ok Waiting.
Proof. split_and!; [reflexivity | discriminate | discriminate]. Qed.

(** ** The permutation seed *)

Lemma fresh_seed_clean {env : StorageEnvironment} (self : Client)
    (ss : StorageServer) :
  nodeid self ≠ EmptyString → _node_public_key self ≠ EmptyString →
  Py.strip (fresh_seed self ss) = fresh_seed self ss
  ∧ fresh_seed self ss ≠ EmptyString.
Proof.
  intros Hid Hkey. unfold fresh_seed.
  destruct (have_shares ss); (split; [apply strip_b2a|]).
  - by apply b2a_nonempty.
  - by apply b2a_nonempty, b2a_nonempty.
Qed.

Lemma _init_permutation_seed_unrecorded {env : StorageEnvironment}
    (self : Client) (ss : StorageServer) :
  Py.truthy (Config.get_config_from_file (config self) "permutation-seed") = false →
  _Client._init_permutation_seed self ss
  = Ok (Py.strip (fresh_seed self ss),
        set_config self
          (Config.write_config_file (config self) "permutation-seed"
             (fresh_seed self ss +:+ Py.newline))).
Proof.
  intros Hseed. unfold _Client._init_permutation_seed, fresh_seed.
  rewrite Hseed. simpl.
  destruct (have_shares ss); reflexivity.
Qed.

Lemma _init_permutation_seed_recorded {env : StorageEnvironment}
    (self : Client) (ss : StorageServer)
    (text : string) :
  Config.files (config self) !! "permutation-seed" = Some text →
  Py.strip text ≠ EmptyString →
  _Client._init_permutation_seed self ss = Ok (Py.strip text, self).
Proof.
  intros Hfile Htext. unfold _Client._init_permutation_seed.
  unfold Config.get_config_from_file. rewrite Hfile. simpl.
  destruct (Py.strip text) eqn:Hs; [done|]. simpl.
  by rewrite <- Hs, strip_idem.
Qed.

Lemma _init_permutation_seed_frame {env : StorageEnvironment}
    (self self' : Client) (ss : StorageServer)
    (seed : string) :
  _Client._init_permutation_seed self ss = Ok (seed, self') →
  ∃ cfg, self' = set_config self cfg.
Proof.
  unfold _Client._init_permutation_seed.
  destruct (negb _).
  - intros Hrun. bind_inv Hrun. injection Hrun as _ <-. eauto.
  - intros [= _ <-]. exists (config self). by destruct self.
Qed.

(** C3: the permutation seed is stable.  A recorded seed (a
    [permutation-seed] file with more than white space in it) is returned
    stripped and nothing is written; with no recorded seed, a server that
    already holds shares takes the base32 text of its TubID and only a
    server without shares takes a seed derived from its public key; and
    whichever seed the call returned, every later call, whatever the
    share directory holds by then, returns the same seed and changes
    nothing. *)
Theorem permutation_seed_stable {env : StorageEnvironment} (self : Client)
    (ss : StorageServer) :
  nodeid self ≠ EmptyString →
  _node_public_key self ≠ EmptyString →
  ∃ seed self',
    _Client._init_permutation_seed self ss = Ok (seed, self')
    ∧ (∀ text, Config.files (config self) !! "permutation-seed" = Some text →
         Py.strip text ≠ EmptyString →
         seed = Py.strip text ∧ self' = self)
    ∧ (Py.truthy (Config.get_config_from_file (config self) "permutation-seed")
       = false →
       (have_shares ss = true → seed = Base32.b2a (nodeid self))
       ∧ (have_shares ss = false →
          seed = Base32.b2a (Base32.b2a (_node_public_key self)))
       ∧ Config.get_config_from_file (config self') "permutation-seed"
         = Some seed)
    ∧ (∀ (later : StorageEnvironment) ss',
         _Client._init_permutation_seed (env := later) self' ss'
         = Ok (seed, self')).
Proof.
  intros Hid Hkey.
  destruct (Py.truthy (Config.get_config_from_file (config self) "permutation-seed"))
    eqn:Hseed.
  - unfold Config.get_config_from_file in Hseed.
    destruct (Config.files (config self) !! "permutation-seed") as [text|] eqn:Hfile;
      [|done].
    simpl in Hseed.
    assert (Py.strip text ≠ EmptyString) as Htext.
    { destruct (Py.strip text); [done|discriminate]. }
    exists (Py.strip text), self. split_and!.
    + by apply _init_permutation_seed_recorded.
    + intros text' [= <-] _. done.
    + done.
    + intros later ss'. by apply (_init_permutation_seed_recorded (env := later)).
  - destruct (fresh_seed_clean self ss Hid Hkey) as [Hstrip Hnonempty].
    eexists _, _. split_and!.
    + by apply _init_permutation_seed_unrecorded.
    + intros text Hfile Htext. exfalso.
      unfold Config.get_config_from_file in Hseed. rewrite Hfile in Hseed.
      simpl in Hseed. by destruct (Py.strip text).
    + intros _. rewrite Hstrip. split_and!.
      * unfold fresh_seed. by intros ->.
      * unfold fresh_seed. by intros ->.
      * unfold Config.get_config_from_file. simpl.
        by rewrite lookup_insert_eq; simpl; rewrite strip_newline, Hstrip.
    + intros later ss'.
      rewrite (_init_permutation_seed_recorded (env := later) _ ss'
                 (fresh_seed (env := env) self ss +:+ Py.newline)).
      * by rewrite strip_newline.
      * simpl. apply lookup_insert_eq.
      * by rewrite strip_newline, Hstrip.
Qed.

Lemma permutation_seed_stable_witness :
  Sample.tub_id ≠ EmptyString ∧ Sample.public_key ≠ EmptyString
  ∧ ∃ seed self',
      _Client._init_permutation_seed (env := Sample.used_disk)
        (Sample.client [] [] true) Sample.storage_server
      = Ok (seed, self')
      ∧ _Client._init_permutation_seed (env := Sample.empty_disk) self'
          Sample.storage_server
        = Ok (seed, self').
Proof.
  assert (Sample.tub_id ≠ EmptyString) as Hid by discriminate.
  assert (Sample.public_key ≠ EmptyString) as Hkey by discriminate.
  split; [exact Hid|]. split; [exact Hkey|].
  destruct (permutation_seed_stable (env := Sample.used_disk)
    (Sample.client [] [] true) Sample.storage_server Hid Hkey)
    as (seed & self' & Hrun & _ & _ & Hlater).
  exists seed, self'. split; [exact Hrun|].
  exact (Hlater Sample.empty_disk Sample.storage_server).
Defined.

(** ** [init_storage] *)

Section InitStorage.
Context {parsers : StorageParsers} {env : StorageEnvironment}.

(** C5: with storage enabled (the default) and a tub that is not
    listening, [init_storage] raises the configuration error and builds
    no storage server; with storage disabled it returns at once and the
    node is as it was. *)
Theorem init_storage_needs_listening_tub (self : Client) :
  (Config.get_config_bool (config self) "storage" "enabled" true = Ok true →
   tub_is_listening self = false →
   _Client.init_storage self
   = Raise (ValueError
       "config error: storage is enabled, but tub is not listening ('tub.port=' is empty)"))
  ∧ (Config.lookup (config self) "storage" "enabled" = None →
     tub_is_listening self = false →
     raises (_Client.init_storage self))
  ∧ (Config.get_config_bool (config self) "storage" "enabled" true = Ok false →
     _Client.init_storage self = Ok self).
Proof.
  unfold _Client.init_storage, _Client._is_tub_listening. split_and!.
  - intros -> ->. reflexivity.
  - intros Hnone ->. unfold Config.get_config_bool. rewrite Hnone. simpl.
    eexists. reflexivity.
  - intros ->. reflexivity.
Qed.

(** C6: when [init_storage] builds the storage server, its
    [expiration_sharetypes] holds "immutable" exactly when
    [expire.immutable] is true and "mutable" exactly when [expire.mutable]
    is true, each being true when it is not configured. *)
Theorem init_storage_sharetypes (self self' : Client) :
  _Client.init_storage self = Ok self' →
  Config.get_config_bool (config self) "storage" "enabled" true = Ok true →
  ∃ ss immutable mutable,
    services self' = (services self ++ [service_storage ss])%list
    ∧ Config.get_config_bool (config self) "storage" "expire.immutable" true
      = Ok immutable
    ∧ Config.get_config_bool (config self) "storage" "expire.mutable" true
      = Ok mutable
    ∧ (Config.lookup (config self) "storage" "expire.immutable" = None →
       immutable = true)
    ∧ (Config.lookup (config self) "storage" "expire.mutable" = None →
       mutable = true)
    ∧ expiration_sharetypes ss
      = ((if immutable then ["immutable"] else [])
         ++ (if mutable then ["mutable"] else []))%list
    ∧ ("immutable" ∈ expiration_sharetypes ss ↔ immutable = true)
    ∧ ("mutable" ∈ expiration_sharetypes ss ↔ mutable = true).
Proof.
  unfold _Client.init_storage. intros Hrun Henabled.
  rewrite Henabled in Hrun. simpl in Hrun.
  destruct (negb (_Client._is_tub_listening self)); [discriminate|].
  do 10 bind_inv Hrun.
  bind_inv_as Hrun cutoff_date Hcutoff.
  bind_inv_as Hrun immutable Himmutable.
  bind_inv_as Hrun mutable Hmutable.
  bind_inv_as Hrun seeded Hseeded. destruct seeded as [seed self1].
  injection Hrun as <-.
  apply _init_permutation_seed_frame in Hseeded as [cfg ->].
  eexists _, immutable, mutable. split_and!.
  - reflexivity.
  - done.
  - done.
  - intros Hnone. unfold Config.get_config_bool in Himmutable.
    rewrite Hnone in Himmutable. by injection Himmutable.
  - intros Hnone. unfold Config.get_config_bool in Hmutable.
    rewrite Hnone in Hmutable. by injection Hmutable.
  - simpl. by destruct immutable, mutable.
  - simpl. destruct immutable, mutable; simpl;
      rewrite ?elem_of_cons, ?elem_of_nil; intuition discriminate.
  - simpl. destruct immutable, mutable; simpl;
      rewrite ?elem_of_cons, ?elem_of_nil; intuition discriminate.
Qed.

End InitStorage.

Lemma init_storage_needs_listening_tub_witness :
  let enabled := Sample.client [("storage", "enabled", "yes")] [] false in
  let disabled := Sample.client [("storage", "enabled", "false")] [] false in
  Config.get_config_bool (config enabled) "storage" "enabled" true = Ok true
  ∧ tub_is_listening enabled = false
  ∧ raises (_Client.init_storage (parsers := Sample.storage_parsers)
              (env := Sample.empty_disk) enabled)
  ∧ Config.get_config_bool (config disabled) "storage" "enabled" true = Ok false
  ∧ _Client.init_storage (parsers := Sample.storage_parsers)
      (env := Sample.empty_disk) disabled = Ok disabled.
Proof.
  intros enabled disabled.
  assert (Config.get_config_bool (config enabled) "storage" "enabled" true
          = Ok true) as Hon by reflexivity.
  assert (Config.get_config_bool (config disabled) "storage" "enabled" true
          = Ok false) as Hoff by reflexivity.
  destruct (init_storage_needs_listening_tub (parsers := Sample.storage_parsers)
    (env := Sample.empty_disk) enabled) as (Hraise & _ & _).
  destruct (init_storage_needs_listening_tub (parsers := Sample.storage_parsers)
    (env := Sample.empty_disk) disabled) as (_ & _ & Hreturn).
  split_and!; [exact Hon | reflexivity | | exact Hoff | exact (Hreturn Hoff)].
  eexists. exact (Hraise Hon eq_refl).
Defined.

Lemma init_storage_sharetypes_witness :
  let self := Sample.client [("storage", "expire.mutable", "no")] [] true in
  ∃ self' ss,
    _Client.init_storage (parsers := Sample.storage_parsers)
      (env := Sample.empty_disk) self = Ok self'
    ∧ Config.get_config_bool (config self) "storage" "enabled" true = Ok true
    ∧ services self' = [service_storage ss]
    ∧ expiration_sharetypes ss = ["immutable"].
Proof.
  intros self.
  assert (∃ self', _Client.init_storage (parsers := Sample.storage_parsers)
            (env := Sample.empty_disk) self = Ok self') as [self' Hrun].
  { vm_compute. eexists. reflexivity. }
  assert (Config.get_config_bool (config self) "storage" "enabled" true
          = Ok true) as Henabled by reflexivity.
  destruct (init_storage_sharetypes (parsers := Sample.storage_parsers)
    (env := Sample.empty_disk) self self' Hrun Henabled)
    as (ss & immutable & mutable & Hservices & Himmutable & Hmutable & _ & _
        & Htypes & _).
  exists self', ss. split_and!; [exact Hrun | exact Henabled | exact Hservices |].
  assert (immutable = true) as -> by (vm_compute in Himmutable; congruence).
  assert (mutable = false) as -> by (vm_compute in Hmutable; congruence).
  exact Htypes.
Defined.

(** ** [init_client] *)

Section InitClient.
Context {pylib : PythonLibrary} {ifaces : Interfaces}.

Lemma init_nodemaker_returns (self : Client) (blacklist : string) :
  ∃ version,
    _Client.init_nodemaker self blacklist
    = Ok (set_nodemaker self (Some (NodeMaker.mk version blacklist))).
Proof.
  unfold _Client.init_nodemaker, Config.get_config.
  change (Config.is_furl_option "mutable.format") with false.
  destruct (Config.lookup _ _ _); simpl; eauto.
Qed.

(** C2 (as amended): [init_client] checks no order between the encoding
    parameters.  Whenever the lookup of [helper.furl] does not raise and
    each of [shares.needed], [shares.total] and [shares.happy] is absent
    or is text that [int()] accepts, [init_client] returns, and the stored
    parameters are exactly those integers (the stored value for an absent
    entry), whatever their order. *)
Theorem init_client_stores_configured_parameters (self : Client)
    (helper_furl : option string) (needed total happy : Z) :
  let cfg := config self in
  let DEP := encoding_params self in
  Config.get_config cfg "client" "helper.furl" None Some = Ok helper_furl →
  Config.get_config cfg "client" "shares.needed"
    (Py.Int (EncodingParameters.k DEP)) Py.Str ≫= Py.int_ = Ok needed →
  Config.get_config cfg "client" "shares.total"
    (Py.Int (EncodingParameters.n DEP)) Py.Str ≫= Py.int_ = Ok total →
  Config.get_config cfg "client" "shares.happy"
    (Py.Int (EncodingParameters.happy DEP)) Py.Str ≫= Py.int_ = Ok happy →
  ∃ self',
    _Client.init_client self = Ok self'
    ∧ _Client.get_encoding_parameters self'
      = EncodingParameters.mk needed happy total
          (EncodingParameters.max_segment_size DEP)
    ∧ is_Some (nodemaker self').
Proof.
  intros cfg DEP Hfurl Hneeded Htotal Hhappy.
  bind_inv_as Hneeded v1 Hv1. bind_inv_as Htotal v2 Hv2.
  bind_inv_as Hhappy v3 Hv3.
  unfold _Client.init_client. fold cfg. rewrite Hfurl. simpl.
  fold DEP. rewrite Hv1. simpl. rewrite Hneeded. simpl.
  rewrite Hv2. simpl. rewrite Htotal. simpl.
  rewrite Hv3. simpl. rewrite Hhappy. simpl.
  match goal with
  | |- ∃ _, _Client.init_nodemaker ?c ?b = _ ∧ _ =>
      destruct (init_nodemaker_returns c b) as [version ->]
  end.
  eexists. split; [reflexivity|]. split; [reflexivity|]. simpl. eauto.
Qed.

End InitClient.

Lemma init_client_stores_configured_parameters_witness :
  let self :=
    Sample.client [("client", "shares.needed", "2"); ("client", "shares.total", " 5 ")]
      [] true in
  ∃ self',
    _Client.init_client (pylib := Sample.python_library)
      (ifaces := Sample.interfaces) self = Ok self'
    ∧ _Client.get_encoding_parameters self'
      = EncodingParameters.mk 2 7 5 131072.
Proof.
  intros self.
  destruct (init_client_stores_configured_parameters
    (pylib := Sample.python_library) (ifaces := Sample.interfaces)
    self None 2 5 7 eq_refl eq_refl eq_refl eq_refl) as (self' & Hrun & Hparams & _).
  exists self'. split; [exact Hrun | exact Hparams].
Defined.

(** The claim C2 as it is written fails: with [shares.needed = 10],
    [shares.happy = 1] and [shares.total = 3] the client is set up and keeps
    these values, although 10 ≤ 1 ≤ 3 does not hold. *)
Lemma init_client_accepts_unordered_parameters :
  ∃ self',
    _Client.init_client (pylib := Sample.python_library)
      (ifaces := Sample.interfaces)
      (Sample.client
         [("client", "shares.needed", "10"); ("client", "shares.happy", "1");
          ("client", "shares.total", "3")] [] true) = Ok self'
    ∧ EncodingParameters.k (encoding_params self') = 10
    ∧ EncodingParameters.happy (encoding_params self') = 1
    ∧ EncodingParameters.n (encoding_params self') = 3
    ∧ ¬ (EncodingParameters.k (encoding_params self')
         ≤ EncodingParameters.happy (encoding_params self')
         ≤ EncodingParameters.n (encoding_params self'))%Z.
Proof.
  eexists. split; [vm_compute; reflexivity|]. simpl. split_and!; try reflexivity.
  lia.
Qed.

(** ** [create_node_from_uri] *)

(** C7: once the node maker exists, [create_node_from_uri] returns a node
    for every pair of capability arguments and never raises; when the
    capability it dispatches on has no recognised tagged form, or none is
    given, the node is the unusable node that keeps the two arguments. *)
Theorem create_node_from_uri_never_raises {uri : NodeMaker.Uri} (self : Client)
    (nm : NodeMaker.t) (write_uri read_uri : option string)
    (deep_immutable : bool) (name : string) :
  nodemaker self = Some nm →
  ∃ node,
    _Client.create_node_from_uri self write_uri read_uri deep_immutable name
    = Ok node
    ∧ ((∀ cap, write_uri = Some cap ∨ read_uri = Some cap →
          NodeMaker.from_string cap = None) →
       node = NodeMaker.UnusableNode write_uri read_uri).
Proof.
  intros Hnm. unfold _Client.create_node_from_uri. rewrite Hnm.
  eexists. split; [reflexivity|]. intros Hbad.
  unfold NodeMaker.create_from_cap.
  destruct (Py.truthy write_uri).
  - destruct write_uri as [cap|]; [|done]. by rewrite (Hbad cap); [|left].
  - destruct read_uri as [cap|]; [|done]. by rewrite (Hbad cap); [|right].
Qed.

Lemma create_node_from_uri_never_raises_witness :
  let self := set_nodemaker (Sample.client [] [] true)
                (Some (NodeMaker.mk 0 "/node/access.blacklist")) in
  nodemaker self = Some (NodeMaker.mk 0 "/node/access.blacklist")
  ∧ ∃ node,
      _Client.create_node_from_uri (uri := Sample.uri) self
        (Some "not a capability") None false "<unknown name>" = Ok node.
Proof.
  intros self. split; [reflexivity|].
  destruct (create_node_from_uri_never_raises (uri := Sample.uri) self
    (NodeMaker.mk 0 "/node/access.blacklist") (Some "not a capability") None
    false "<unknown name>" eq_refl) as (node & Hrun & _).
  exists node. exact Hrun.
Defined.

(** ** The storage farm broker *)

Lemma In_resumed_check (sb : StorageFarmBroker.t) (l : Z * StorageFarmBroker.callback) :
  In l (StorageFarmBroker.resumed (StorageFarmBroker.check sb))
  ↔ In l (StorageFarmBroker.resumed sb)
    ∨ (In l (StorageFarmBroker.waiting sb)
       ∧ (l.1 ≤ StorageFarmBroker.connected_servers sb)%Z).
Proof.
  unfold StorageFarmBroker.check. simpl.
  rewrite in_app_iff, filter_In. unfold StorageFarmBroker.enough.
  by rewrite Z.leb_le.
Qed.

Lemma In_waiting_check (sb : StorageFarmBroker.t) (l : Z * StorageFarmBroker.callback) :
  In l (StorageFarmBroker.waiting (StorageFarmBroker.check sb))
  ↔ In l (StorageFarmBroker.waiting sb)
    ∧ (StorageFarmBroker.connected_servers sb < l.1)%Z.
Proof.
  unfold StorageFarmBroker.check. simpl.
  rewrite filter_In. unfold StorageFarmBroker.enough.
  rewrite negb_true_iff, Z.leb_gt. done.
Qed.

Lemma when_connected_enough_uniform (sb : StorageFarmBroker.t)
    (threshold connected : Z) (cb : StorageFarmBroker.callback) :
  StorageFarmBroker.uniform threshold connected sb →
  StorageFarmBroker.uniform threshold connected
    (StorageFarmBroker.when_connected_enough sb threshold cb)
  ∧ StorageFarmBroker.registered
      (StorageFarmBroker.when_connected_enough sb threshold cb) (threshold, cb)
  ∧ (∀ l, StorageFarmBroker.registered sb l →
          StorageFarmBroker.registered
            (StorageFarmBroker.when_connected_enough sb threshold cb) l).
Proof.
  intros (Hconnected & Hwaiting & Hresumed).
  unfold StorageFarmBroker.when_connected_enough, StorageFarmBroker.registered.
  split_and!.
  - split_and!; [done| |].
    + intros l [Hl Hlt]%In_waiting_check. simpl in Hl, Hlt.
      apply in_app_iff in Hl as [Hl|[<-|[]]]; [by apply Hwaiting|].
      simpl in *. split; [done|lia].
    + intros l [Hl|[Hl Hle]]%In_resumed_check; simpl in Hl; [by apply Hresumed|].
      simpl in Hle. apply in_app_iff in Hl as [Hl|[<-|[]]].
      * destruct (Hwaiting l Hl). lia.
      * simpl in *. split; [done|lia].
  - rewrite In_waiting_check, In_resumed_check. simpl.
    rewrite in_app_iff. simpl.
    destruct (Z.le_gt_cases threshold (StorageFarmBroker.connected_servers sb));
      [right; right|left]; (split; [by right; left|lia]).
  - intros l [Hl|Hl].
    + rewrite In_waiting_check. simpl. left. split; [apply in_app_iff; by left|].
      destruct (Hwaiting l Hl). lia.
    + right. apply In_resumed_check. by left.
Qed.

Lemma servers_changed_resumed (sb : StorageFarmBroker.t) (threshold connected m : Z)
    (cb : StorageFarmBroker.callback) :
  StorageFarmBroker.uniform threshold connected sb →
  StorageFarmBroker.registered sb (threshold, cb) →
  StorageFarmBroker.has_resumed (StorageFarmBroker.servers_changed sb m) cb
  ↔ (threshold ≤ connected ∨ threshold ≤ m)%Z.
Proof.
  intros (Hconnected & Hwaiting & Hresumed) Hcb.
  unfold StorageFarmBroker.has_resumed, StorageFarmBroker.servers_changed.
  split.
  - intros [t [Hl|[Hl Hle]]%In_resumed_check]; simpl in *.
    + destruct (Hresumed _ Hl). simpl in *. lia.
    + destruct (Hwaiting _ Hl). simpl in *. lia.
  - intros Hreached. exists threshold. apply In_resumed_check. simpl.
    destruct Hcb as [Hl|Hl]; [|by left].
    right. split; [done|]. destruct (Hwaiting _ Hl). lia.
Qed.

(** ** [init_magic_folder] *)

Section InitMagicFolder.
Context {ifaces : Interfaces} {frontend : MagicFolderFrontend}.

Lemma start_magic_folder_effect (threshold : Z) (self self' : Client)
    (name mfc : string) :
  _Client.start_magic_folder threshold self (name, mfc) = Ok self' →
  ∃ s,
    from_config name mfc = Ok s
    ∧ storage_broker self'
      = StorageFarmBroker.when_connected_enough (storage_broker self)
          threshold (StorageFarmBroker.connected_enough s)
    ∧ services self' = (services self ++ [service_magic_folder s])%list.
Proof.
  unfold _Client.start_magic_folder. intros Hrun.
  bind_inv_as Hrun s Hs. injection Hrun as <-. by exists s.
Qed.

Lemma start_magic_folders_effect (threshold connected : Z)
    (items : list (string * string)) (self self' : Client) :
  _Client.start_magic_folders threshold self items = Ok self' →
  StorageFarmBroker.uniform threshold connected (storage_broker self) →
  StorageFarmBroker.uniform threshold connected (storage_broker self')
  ∧ (∀ l, StorageFarmBroker.registered (storage_broker self) l →
          StorageFarmBroker.registered (storage_broker self') l)
  ∧ (∀ s, In s (services self) → In s (services self'))
  ∧ (∀ name mfc, In (name, mfc) items →
       ∃ s,
         from_config name mfc = Ok s
         ∧ StorageFarmBroker.registered (storage_broker self')
             (threshold, StorageFarmBroker.connected_enough s)
         ∧ In (service_magic_folder s) (services self')).
Proof.
  revert self. induction items as [|[name mfc] rest IH]; intros self Hrun Huniform.
  - injection Hrun as <-. split_and!; [done..|]. intros ?? [].
  - simpl in Hrun. bind_inv_as Hrun self1 Hfirst.
    apply start_magic_folder_effect in Hfirst as (s & Hs & Hbroker & Hservices).
    destruct (when_connected_enough_uniform (storage_broker self) threshold
                connected (StorageFarmBroker.connected_enough s) Huniform)
      as (Huniform1 & Hregistered & Hkept).
    rewrite <- Hbroker in Huniform1, Hregistered, Hkept.
    destruct (IH self1 Hrun Huniform1) as (Huniform' & Hkept' & Hservices' & Hrest).
    split_and!; [done| | |].
    + intros l Hl. by apply Hkept', Hkept.
    + intros s0 Hs0. apply Hservices'. rewrite Hservices.
      apply in_app_iff. by left.
    + intros name' mfc' [[= <- <-]|Hin].
      * exists s. split_and!; [done|by apply Hkept'|].
        apply Hservices'. rewrite Hservices. apply in_app_iff. right. by left.
      * by apply Hrest.
Qed.

(** C10: with magic folders enabled, every configured folder is started
    and waits on [when_connected_enough(min(k, happy + 1))]: on a broker
    nobody else is waiting on, its [ready()] has been called after the set
    of connected servers changes exactly when min(k, happy + 1) servers
    were connected at start-up or are connected now; happy itself plays no
    part beyond this minimum, and the default parameters give the
    threshold 3. *)
Theorem init_magic_folder_threshold (self self' : Client)
    (folders : list (string * string)) :
  let threshold :=
    Z.min (EncodingParameters.k (encoding_params self))
          (EncodingParameters.happy (encoding_params self) + 1) in
  Config.get_config_bool (config self) "drop_upload" "enabled" false = Ok false →
  Config.get_config_bool (config self) "magic_folder" "enabled" false = Ok true →
  load_magic_folders (Config.basedir (config self)) = Ok folders →
  StorageFarmBroker.waiting (storage_broker self) = [] →
  StorageFarmBroker.resumed (storage_broker self) = [] →
  _Client.init_magic_folder self = Ok self' →
  (∀ name mfc, In (name, mfc) folders →
     ∃ s,
       from_config name mfc = Ok s
       ∧ In (service_magic_folder s) (services self')
       ∧ StorageFarmBroker.registered (storage_broker self')
           (threshold, StorageFarmBroker.connected_enough s)
       ∧ ∀ m,
           StorageFarmBroker.has_resumed
             (StorageFarmBroker.servers_changed (storage_broker self') m)
             (StorageFarmBroker.connected_enough s)
           ↔ (threshold ≤ StorageFarmBroker.connected_servers (storage_broker self)
              ∨ threshold ≤ m)%Z)
  ∧ (∀ l, StorageFarmBroker.registered (storage_broker self') l →
          l.1 = threshold)
  ∧ (encoding_params self = _Client.DEFAULT_ENCODING_PARAMETERS →
     threshold = 3).
Proof.
  intros threshold Hdrop Henabled Hload Hwaiting Hresumed Hrun.
  unfold _Client.init_magic_folder in Hrun.
  rewrite Hdrop in Hrun. simpl in Hrun. rewrite Henabled in Hrun. simpl in Hrun.
  rewrite Hload in Hrun. simpl in Hrun.
  fold threshold in Hrun.
  assert (StorageFarmBroker.uniform threshold
            (StorageFarmBroker.connected_servers (storage_broker self))
            (storage_broker self)) as Huniform.
  { split_and!; [done| |]; intros l; [rewrite Hwaiting|rewrite Hresumed];
      intros []. }
  change (_Client.magic_folder_threshold self) with threshold in Hrun.
  destruct (start_magic_folders_effect threshold _ folders self self' Hrun Huniform)
    as (Huniform' & _ & _ & Hfolders).
  split_and!.
  - intros name mfc Hin.
    destruct (Hfolders name mfc Hin) as (s & Hs & Hregistered & Hservice).
    exists s. split_and!; [done..|].
    intros m. by apply servers_changed_resumed.
  - destruct Huniform' as (_ & Hw & Hr).
    intros l [Hl|Hl]; [by apply Hw|by apply Hr].
  - intros Hdefault. unfold threshold. rewrite Hdefault. reflexivity.
Qed.

End InitMagicFolder.

Lemma init_magic_folder_threshold_witness :
  let self := Sample.client [("magic_folder", "enabled", "true")] [] true in
  ∃ self' s,
    _Client.init_magic_folder (frontend := Sample.one_magic_folder) self = Ok self'
    ∧ from_config (MagicFolderFrontend := Sample.one_magic_folder)
        "default" "/home/user/sync" = Ok s
    ∧ (StorageFarmBroker.has_resumed
         (StorageFarmBroker.servers_changed (storage_broker self') 3)
         (StorageFarmBroker.connected_enough s)
       ↔ (3 ≤ 0 ∨ 3 ≤ 3)%Z).
Proof.
  intros self.
  assert (∃ self', _Client.init_magic_folder (frontend := Sample.one_magic_folder)
            self = Ok self') as [self' Hrun].
  { vm_compute. eexists. reflexivity. }
  destruct (init_magic_folder_threshold (ifaces := Sample.interfaces)
    (frontend := Sample.one_magic_folder) self self'
    [("default", "/home/user/sync")] eq_refl eq_refl eq_refl eq_refl eq_refl Hrun)
    as (Hfolders & _ & _).
  destruct (Hfolders "default" "/home/user/sync" (or_introl eq_refl))
    as (s & Hs & _ & _ & Hready).
  exists self', s. split_and!; [exact Hrun | exact Hs | exact (Hready 3)].
Defined.

(** ** Sanity checks of the helpers on known values *)

Example b2a_rfc_vectors :
  Base32.b2a "" = ""
  ∧ Base32.b2a "f" = "my"
  ∧ Base32.b2a "fo" = "mzxq"
  ∧ Base32.b2a "foo" = "mzxw6"
  ∧ Base32.b2a "foob" = "mzxw6yq"
  ∧ Base32.b2a "fooba" = "mzxw6ytb"
  ∧ Base32.b2a "foobar" = "mzxw6ytboi".
Proof. by split_and!. Qed.

Example int_examples :
  Py.int " -42 " = Ok (-42)
  ∧ Py.int "+7" = Ok 7
  ∧ Py.int "010" = Ok 10
  ∧ raises (Py.int "")
  ∧ raises (Py.int "3.5")
  ∧ raises (Py.int "- 3").
Proof. split_and!; try reflexivity; eexists; reflexivity. Qed.

Example getboolean_examples :
  Config.getboolean "Yes" = Ok true
  ∧ Config.getboolean "OFF" = Ok false
  ∧ raises (Config.getboolean "maybe").
Proof. split_and!; try reflexivity; eexists; reflexivity. Qed.

Example strip_examples :
  Py.strip (" ab c " +:+ Py.newline) = "ab c"
  ∧ Py.strip Py.newline = ""
  ∧ Py.truthy (Some (Py.strip "   ")) = false.
Proof. by split_and!. Qed.

(** * Further properties of [client.py] *)

(** ** Decimal text of integers: ["{}".format] and [int()] *)

Ltac eval_char_code :=
  match goal with
  | |- context [nat_of_ascii ?c] =>
      let v := eval vm_compute in (nat_of_ascii c) in
      change (nat_of_ascii c) with v
  end.

Lemma digits_string_of_uint_pos (u : Decimal.uint) (p : positive) :
  Py.digits (DecimalString.NilEmpty.string_of_uint u) (Z.pos p)
  = Some (Z.pos (Pos.of_uint_acc u p)).
Proof.
  revert p. induction u as [|u IH|u IH|u IH|u IH|u IH|u IH|u IH|u IH|u IH|u IH];
    intros p; simpl; [done|..]; eval_char_code;
    match goal with
    | |- Py.digits _ ?acc = Some (Z.pos (Pos.of_uint_acc _ ?q)) =>
        replace acc with (Z.pos q) by lia; apply IH
    end.
Qed.

Lemma digits_string_of_uint_zero (u : Decimal.uint) :
  Py.digits (DecimalString.NilEmpty.string_of_uint u) 0
  = Some (Z.of_N (Pos.of_uint u)).
Proof.
  induction u as [|u IH|u IH|u IH|u IH|u IH|u IH|u IH|u IH|u IH|u IH];
    simpl; [done|apply IH|..]; eval_char_code;
    match goal with
    | |- Py.digits _ ?acc = Some (Z.pos (Pos.of_uint_acc _ ?q)) =>
        replace acc with (Z.pos q) by lia; apply digits_string_of_uint_pos
    end.
Qed.

Lemma string_of_uint_digits (u : Decimal.uint) :
  Py.all_chars is_digit (DecimalString.NilEmpty.string_of_uint u) = true.
Proof. induction u; simpl; done. Qed.

Lemma unsigned_to_uint (p : positive) :
  Py.unsigned (DecimalString.NilEmpty.string_of_uint (Pos.to_uint p))
  = Some (Z.pos p).
Proof.
  unfold Py.unsigned.
  pose proof (DecimalPos.Unsigned.to_uint_nonnil p) as Hnil.
  destruct (DecimalString.NilEmpty.string_of_uint (Pos.to_uint p)) eqn:Hs.
  - destruct (Pos.to_uint p); done.
  - simpl Py.is_empty. cbv iota. rewrite <- Hs, digits_string_of_uint_zero.
    by rewrite DecimalPos.Unsigned.of_to.
Qed.

Lemma all_chars_impl (P Q : ascii → bool) (s : string) :
  (∀ c, P c = true → Q c = true) →
  Py.all_chars P s = true → Py.all_chars Q s = true.
Proof.
  intros HPQ. induction s as [|c r IH]; simpl; [done|].
  intros [Hc Hr]%andb_true_iff. by rewrite (HPQ c Hc), IH.
Qed.

Lemma is_digit_no_space (c : ascii) : is_digit c = true → no_space c = true.
Proof. by destruct c as [[] [] [] [] [] [] [] []]. Qed.

Lemma int_of_digits (s : string) (z : Z) :
  Py.all_chars is_digit s = true → Py.unsigned s = Some z → Py.int s = Ok z.
Proof.
  intros Hdigits Hvalue. unfold Py.int.
  rewrite (strip_no_space s (all_chars_impl _ _ s is_digit_no_space Hdigits)).
  destruct s as [|c r]; [done|].
  simpl in Hdigits. apply andb_true_iff in Hdigits as [Hc _].
  destruct c as [[] [] [] [] [] [] [] []]; try discriminate Hc;
    by rewrite Hvalue.
Qed.

Lemma int_of_minus_digits (s : string) (z : Z) :
  Py.all_chars is_digit s = true → Py.unsigned s = Some z →
  Py.int (String "-" s) = Ok (- z).
Proof.
  intros Hdigits Hvalue. unfold Py.int.
  rewrite strip_no_space.
  - by rewrite Hvalue.
  - simpl. by rewrite (all_chars_impl _ _ s is_digit_no_space Hdigits).
Qed.

Lemma format_int_pos (p : positive) :
  Py.format_int (Z.pos p)
  = DecimalString.NilEmpty.string_of_uint (Pos.to_uint p).
Proof.
  unfold Py.format_int. simpl.
  pose proof (DecimalPos.Unsigned.to_uint_nonnil p) as Hnil.
  unfold DecimalString.NilZero.string_of_uint. by destruct (Pos.to_uint p).
Qed.

Lemma format_int_neg (p : positive) :
  Py.format_int (Z.neg p)
  = String "-" (DecimalString.NilEmpty.string_of_uint (Pos.to_uint p)).
Proof.
  unfold Py.format_int. simpl.
  pose proof (DecimalPos.Unsigned.to_uint_nonnil p) as Hnil.
  unfold DecimalString.NilZero.string_of_uint. by destruct (Pos.to_uint p).
Qed.

(** [int()] reads back what ["{}".format] writes. *)
Lemma int_format_int (z : Z) : Py.int (Py.format_int z) = Ok z.
Proof.
  destruct z as [|p|p].
  - reflexivity.
  - rewrite format_int_pos.
    apply int_of_digits; [apply string_of_uint_digits|apply unsigned_to_uint].
  - rewrite format_int_neg.
    apply (int_of_minus_digits _ (Z.pos p));
      [apply string_of_uint_digits|apply unsigned_to_uint].
Qed.

Lemma format_int_no_space (z : Z) :
  Py.all_chars no_space (Py.format_int z) = true.
Proof.
  destruct z as [|p|p].
  - reflexivity.
  - rewrite format_int_pos.
    apply (all_chars_impl _ _ _ is_digit_no_space), string_of_uint_digits.
  - rewrite format_int_neg. simpl.
    apply (all_chars_impl _ _ _ is_digit_no_space), string_of_uint_digits.
Qed.

Lemma format_int_nonempty (z : Z) : Py.format_int z ≠ EmptyString.
Proof.
  pose proof (int_format_int z) as Hint. intros Hempty.
  rewrite Hempty in Hint. discriminate Hint.
Qed.

(** ** [_sequencer] *)

Lemma _sequencer_reads_back {rnd : Urandom} {enc : SecretEncoding}
    (config : Config.t) (z : Z) (draw : nat) :
  Config.files config !! "announcement-seqnum"
  = Some (Py.format_int z +:+ Py.newline) →
  _sequencer config draw
  = Ok ((z + 1, Py.strip (_make_secret draw)),
        Config.write_config_file config "announcement-seqnum"
          (Py.format_int (z + 1) +:+ Py.newline)).
Proof.
  intros Hfile. unfold _sequencer, Config.get_config_from_file.
  rewrite Hfile. simpl.
  rewrite strip_newline, (strip_no_space _ (format_int_no_space z)).
  destruct (Py.format_int z) eqn:Hz; [by apply format_int_nonempty in Hz|].
  simpl. rewrite <- Hz.
  rewrite (strip_no_space _ (format_int_no_space z)), int_format_int.
  reflexivity.
Qed.

(** X1: on a node that has no [announcement-seqnum] file, or a blank one,
    [_sequencer] returns the sequence number 1 and leaves the file holding
    "1" and a newline. *)
Theorem _sequencer_starts_at_one {rnd : Urandom} {enc : SecretEncoding}
    (config : Config.t) (draw : nat) :
  Py.truthy (Config.get_config_from_file config "announcement-seqnum") = false →
  ∃ nonce config',
    _sequencer config draw = Ok ((1, nonce), config')
    ∧ Config.files config' !! "announcement-seqnum" = Some ("1" +:+ Py.newline)
    ∧ Config.get_config_from_file config' "announcement-seqnum" = Some "1".
Proof.
  intros Hblank. unfold _sequencer. rewrite Hblank. simpl.
  eexists _, _. split; [reflexivity|]. split.
  - simpl. apply lookup_insert_eq.
  - unfold Config.get_config_from_file. simpl. by rewrite lookup_insert_eq.
Qed.

Lemma _sequencer_starts_at_one_witness :
  Py.truthy (Config.get_config_from_file
               (config (Sample.client [] [("announcement-seqnum", "  ")] true))
               "announcement-seqnum") = false
  ∧ ∃ nonce config',
      _sequencer (rnd := Sample.urandom_letters) (enc := Sample.secret_encoding)
        (config (Sample.client [] [("announcement-seqnum", "  ")] true)) 0
      = Ok ((1, nonce), config').
Proof.
  split; [reflexivity|].
  destruct (_sequencer_starts_at_one (rnd := Sample.urandom_letters)
    (enc := Sample.secret_encoding)
    (config (Sample.client [] [("announcement-seqnum", "  ")] true)) 0 eq_refl)
    as (nonce & config' & Hrun & _).
  exists nonce, config'. exact Hrun.
Defined.

(** X2: sequence numbers are consecutive across calls and restarts: after a
    call of [_sequencer] that returned [seqnum], the next call on the
    directory it left returns [seqnum + 1], whatever the number was and
    whatever bytes [os.urandom] gives. *)
Theorem _sequencer_consecutive {rnd : Urandom} {enc : SecretEncoding}
    (config config' : Config.t) (draw : nat) (seqnum : Z) (nonce : string) :
  _sequencer config draw = Ok ((seqnum, nonce), config') →
  ∀ (rnd' : Urandom) (draw' : nat),
    ∃ nonce' config'',
      _sequencer (rnd := rnd') config' draw' = Ok ((seqnum + 1, nonce'), config'')
      ∧ Config.get_config_from_file config'' "announcement-seqnum"
        = Some (Py.format_int (seqnum + 1)).
Proof.
  unfold _sequencer at 1. intros Hrun rnd' draw'.
  bind_inv_as Hrun previous Hprevious. injection Hrun as <- _ <-.
  rewrite (_sequencer_reads_back (rnd := rnd') _ (previous + 1) draw').
  - eexists _, _. split; [reflexivity|].
    unfold Config.get_config_from_file. simpl. rewrite lookup_insert_eq. simpl.
    by rewrite strip_newline, (strip_no_space _ (format_int_no_space _)).
  - simpl. apply lookup_insert_eq.
Qed.

Lemma _sequencer_consecutive_witness :
  ∃ nonce config' nonce' config'',
    _sequencer (rnd := Sample.urandom_letters) (enc := Sample.secret_encoding)
      (config (Sample.client [] [("announcement-seqnum", "41")] true)) 0
    = Ok ((42, nonce), config')
    ∧ _sequencer (rnd := Sample.urandom_letters) (enc := Sample.secret_encoding)
        config' 1
      = Ok ((43, nonce'), config'').
Proof.
  assert (∃ nonce config',
    _sequencer (rnd := Sample.urandom_letters) (enc := Sample.secret_encoding)
      (config (Sample.client [] [("announcement-seqnum", "41")] true)) 0
    = Ok ((42, nonce), config')) as (nonce & config' & Hrun).
  { eexists _, _. reflexivity. }
  destruct (_sequencer_consecutive (rnd := Sample.urandom_letters)
    (enc := Sample.secret_encoding) _ _ 0 42 nonce Hrun Sample.urandom_letters 1)
    as (nonce' & config'' & Hnext & _).
  exists nonce, config', nonce', config''. split; [exact Hrun | exact Hnext].
Defined.

(** X3: the nonce of [_sequencer] is the base32 text of the bytes drawn from
    [os.urandom]: stripping [_make_secret()] removes the newline it ends
    with and nothing else, and the nonce holds no white space. *)
Theorem _sequencer_nonce {rnd : Urandom} {enc : SecretEncoding}
    (config config' : Config.t) (draw : nat) (seqnum : Z) (nonce : string) :
  _sequencer config draw = Ok ((seqnum, nonce), config') →
  nonce = Base32.b2a (os_urandom draw CRYPTO_VAL_SIZE)
  ∧ _make_secret draw = nonce +:+ Py.newline
  ∧ Py.all_chars no_space nonce = true.
Proof.
  unfold _sequencer. intros Hrun.
  bind_inv_as Hrun previous Hprevious. injection Hrun as _ <- _.
  unfold _make_secret. rewrite strip_newline, strip_b2a.
  split_and!; [done..|apply b2a_no_space].
Qed.

Lemma _sequencer_nonce_witness :
  ∃ seqnum nonce config',
    _sequencer (rnd := Sample.urandom_letters) (enc := Sample.secret_encoding)
      (config (Sample.client [] [] true)) 5
    = Ok ((seqnum, nonce), config')
    ∧ nonce = Base32.b2a "ffff".
Proof.
  assert (∃ seqnum nonce config',
    _sequencer (rnd := Sample.urandom_letters) (enc := Sample.secret_encoding)
      (config (Sample.client [] [] true)) 5
    = Ok ((seqnum, nonce), config')) as (seqnum & nonce & config' & Hrun).
  { eexists _, _, _. reflexivity. }
  exists seqnum, nonce, config'. split; [exact Hrun|].
  exact (proj1 (_sequencer_nonce (rnd := Sample.urandom_letters)
    (enc := Sample.secret_encoding) _ _ 5 seqnum nonce Hrun)).
Defined.

(** ** [init_secrets] *)

Lemma get_or_create_private_config_spec (cfg : Config.t) (name default : string) :
  let '(value, cfg') := Config.get_or_create_private_config cfg name default in
  Config.basedir cfg' = Config.basedir cfg
  ∧ Config.entries cfg' = Config.entries cfg
  ∧ Config.files cfg' = Config.files cfg
  ∧ (∃ text, Config.private_files cfg' !! name = Some text ∧ Py.strip text = value)
  ∧ (∀ other text, Config.private_files cfg !! other = Some text →
       Config.private_files cfg' !! other = Some text)
  ∧ (∀ other, other ≠ name →
       Config.private_files cfg' !! other = Config.private_files cfg !! other).
Proof.
  unfold Config.get_or_create_private_config.
  destruct (Config.private_files cfg !! name) as [value|] eqn:Hfile.
  - split_and!; eauto.
  - simpl. split_and!; try done.
    + exists default. by rewrite lookup_insert_eq.
    + intros other text Hother. rewrite lookup_insert_ne; [done|]. congruence.
    + intros other Hother. by rewrite lookup_insert_ne.
Qed.

Lemma get_or_create_private_config_existing (cfg : Config.t)
    (name default text : string) :
  Config.private_files cfg !! name = Some text →
  Config.get_or_create_private_config cfg name default = (Py.strip text, cfg).
Proof. intros Hfile. unfold Config.get_or_create_private_config. by rewrite Hfile. Qed.

(** X4: the secrets are made once.  After [init_secrets] has returned, the
    files [private/secret] and [private/convergence] exist, every private
    file that existed before is as it was, and running [init_secrets] again
    (a restart), whatever bytes [os.urandom] would give then, returns the
    same node: the same files and the same lease and convergence
    secrets. *)
Theorem init_secrets_persistent {rnd : Urandom} {enc : SecretEncoding}
    (self self' : Client) (draw : nat) :
  _Client.init_secrets self draw = Ok self' →
  is_Some (Config.private_files (config self') !! "secret")
  ∧ is_Some (Config.private_files (config self') !! "convergence")
  ∧ (∀ name text, Config.private_files (config self) !! name = Some text →
       Config.private_files (config self') !! name = Some text)
  ∧ (∀ (rnd' : Urandom) (draw' : nat),
       _Client.init_secrets (rnd := rnd') self' draw' = Ok self').
Proof.
  unfold _Client.init_secrets at 1. intros Hrun.
  pose proof (get_or_create_private_config_spec (config self) "secret"
                (_make_secret draw)) as Hfirst.
  destruct (Config.get_or_create_private_config (config self) "secret" _)
    as [lease_s cfg1].
  destruct Hfirst as (_ & _ & _ & (text1 & Hsecret & Hlease) & Hkept1 & _).
  bind_inv_as Hrun lease_secret Hdecoded1.
  pose proof (get_or_create_private_config_spec cfg1 "convergence"
                (_make_secret (S draw))) as Hsecond.
  destruct (Config.get_or_create_private_config cfg1 "convergence" _)
    as [convergence_s cfg2].
  destruct Hsecond as (_ & _ & _ & (text2 & Hconvergence & Hconv) & Hkept2 & _).
  bind_inv_as Hrun convergence Hdecoded2.
  injection Hrun as <-. simpl.
  split_and!.
  - rewrite (Hkept2 _ _ Hsecret). eauto.
  - eauto.
  - intros name text Hname. by apply Hkept2, Hkept1.
  - intros rnd' draw'. unfold _Client.init_secrets. simpl.
    rewrite (get_or_create_private_config_existing cfg2 "secret" _ text1
               (Hkept2 _ _ Hsecret)).
    rewrite Hlease, Hdecoded1. simpl.
    rewrite (get_or_create_private_config_existing cfg2 "convergence" _ text2
               Hconvergence).
    rewrite Hconv, Hdecoded2. simpl. reflexivity.
Qed.

Lemma init_secrets_persistent_witness :
  ∃ self',
    _Client.init_secrets (rnd := Sample.urandom_letters)
      (enc := Sample.secret_encoding) (Sample.client [] [] true) 0 = Ok self'
    ∧ _Client.init_secrets (rnd := Sample.urandom_letters)
        (enc := Sample.secret_encoding) self' 7 = Ok self'.
Proof.
  assert (∃ self',
    _Client.init_secrets (rnd := Sample.urandom_letters)
      (enc := Sample.secret_encoding) (Sample.client [] [] true) 0 = Ok self')
    as [self' Hrun].
  { vm_compute. eexists. reflexivity. }
  exists self'. split; [exact Hrun|].
  exact (proj2 (proj2 (proj2 (init_secrets_persistent
    (rnd := Sample.urandom_letters) (enc := Sample.secret_encoding)
    _ self' 0%nat Hrun))) Sample.urandom_letters 7%nat).
Defined.

(** ** [create_storage_farm_broker] *)

Lemma split_nonempty (sep : ascii) (s : string) : Py.split sep s ≠ [].
Proof.
  induction s as [|c r IH]; simpl; [done|].
  destruct (Ascii.eqb c sep); [done|]. by destruct (Py.split sep r).
Qed.

Lemma split_no_separator (s : string) :
  Forall (λ w, Py.all_chars not_comma w = true) (Py.split "," s).
Proof.
  induction s as [|c r IH]; simpl.
  - by constructor.
  - destruct (Ascii.eqb c ",") eqn:Hc.
    + by constructor.
    + destruct (Py.split "," r) as [|w ws]; constructor; simpl;
        unfold not_comma at 1; rewrite ?Hc; simpl; try done.
      * by inversion IH.
      * by inversion IH.
Qed.

Lemma all_chars_lstrip (P : ascii → bool) (s : string) :
  Py.all_chars P s = true → Py.all_chars P (Py.lstrip s) = true.
Proof.
  induction s as [|c r IH]; simpl; [done|].
  intros [Hc Hr]%andb_true_iff.
  destruct (Py.is_space c); [by apply IH|]. simpl. by rewrite Hc, Hr.
Qed.

Lemma all_chars_rstrip (P : ascii → bool) (s : string) :
  Py.all_chars P s = true → Py.all_chars P (Py.rstrip s) = true.
Proof.
  induction s as [|c r IH]; simpl; [done|].
  intros [Hc Hr]%andb_true_iff.
  destruct (_ && _); [done|]. simpl. by rewrite Hc, IH.
Qed.

Lemma all_chars_strip (P : ascii → bool) (s : string) :
  Py.all_chars P s = true → Py.all_chars P (Py.strip s) = true.
Proof. intros Hs. by apply all_chars_lstrip, all_chars_rstrip. Qed.

Lemma split_piece (w rest : string) :
  Py.all_chars not_comma w = true →
  Py.split "," (w +:+ String "," rest) = w :: Py.split "," rest.
Proof.
  induction w as [|c r IH]; [done|].
  rewrite append_cons. simpl. intros [Hc Hr]%andb_true_iff.
  unfold not_comma in Hc. apply negb_true_iff in Hc. rewrite Hc.
  by rewrite (IH Hr).
Qed.

Lemma split_last (w : string) :
  Py.all_chars not_comma w = true → Py.split "," w = [w].
Proof.
  induction w as [|c r IH]; [done|]. simpl. intros [Hc Hr]%andb_true_iff.
  unfold not_comma in Hc. apply negb_true_iff in Hc. rewrite Hc.
  by rewrite (IH Hr).
Qed.

Lemma split_concat (names : list string) :
  names ≠ [] →
  Forall (λ w, Py.all_chars not_comma w = true) names →
  Py.split "," (String.concat "," names) = names.
Proof.
  induction names as [|w [|w' ws] IH]; [done| |]; intros _ Hnames.
  - simpl. apply split_last. by inversion Hnames.
  - inversion Hnames as [|? ? Hw Hrest]; subst.
    change (String.concat "," (w :: w' :: ws))
      with (w +:+ String "," (String.concat "," (w' :: ws))).
    rewrite (split_piece _ _ Hw). f_equal. by apply IH.
Qed.

(** X5: [create_storage_farm_broker] never fails on [peers.preferred].
    Every preferred peer it hands to the broker is a piece of the configured
    text between commas with the white space around it removed: it holds no
    comma and stripping it changes nothing.  Without the option there is no
    preferred peer.  And a comma-separated list of names that are not
    empty, hold no comma and carry no white space at their ends comes back
    as it is, in the same order. *)
Theorem create_storage_farm_broker_preferred_peers (config : Config.t)
    (introducer_clients : list IntroducerClient) :
  ∃ setup,
    create_storage_farm_broker config introducer_clients = Ok setup
    ∧ permute_peers setup = true
    ∧ used_introducers setup = introducer_clients
    ∧ (∀ p, In p (preferred_peers setup) →
            Py.strip p = p ∧ Py.all_chars not_comma p = true)
    ∧ (Config.lookup config "client" "peers.preferred" = None →
       preferred_peers setup = [])
    ∧ (∀ names,
         Config.lookup config "client" "peers.preferred"
         = Some (String.concat "," names) →
         Forall (λ w, w ≠ EmptyString ∧ Py.strip w = w
                      ∧ Py.all_chars not_comma w = true) names →
         preferred_peers setup = names).
Proof.
  unfold create_storage_farm_broker, Config.get_config.
  change (Config.is_furl_option "peers.preferred") with false. simpl.
  destruct (Config.lookup config "client" "peers.preferred") as [text|] eqn:Htext;
    simpl; eexists; (split; [reflexivity|]); simpl; split_and!; try done.
  - intros p [w [<- [Hw _]%filter_In]]%in_map_iff.
    split; [apply strip_idem|]. apply all_chars_strip.
    pose proof (split_no_separator text) as Hpieces.
    rewrite Forall_forall in Hpieces. apply Hpieces. by apply list_elem_of_In.
  - intros names [= ->] Hnames.
    destruct names as [|w ws]; [done|].
    rewrite split_concat; [|done|].
    + clear Htext. induction Hnames as [|n ns (Hn & Hstrip & _) _ IH]; [done|].
      simpl. destruct n; [done|]. simpl. by rewrite Hstrip, IH.
    + eapply Forall_impl; [exact Hnames|]. by intros ? (_ & _ & ?).
Qed.

Lemma create_storage_farm_broker_preferred_peers_witness :
  ∃ setup,
    create_storage_farm_broker
      (config (Sample.client [("client", "peers.preferred", "v0-abc,v0-def")] [] true))
      [] = Ok setup
    ∧ preferred_peers setup = ["v0-abc"; "v0-def"].
Proof.
  destruct (create_storage_farm_broker_preferred_peers
    (config (Sample.client [("client", "peers.preferred", "v0-abc,v0-def")] [] true))
    []) as (setup & Hrun & _ & _ & _ & _ & Hnames).
  exists setup. split; [exact Hrun|].
  apply (Hnames ["v0-abc"; "v0-def"]); [reflexivity|].
  repeat constructor; discriminate.
Defined.

(** ** [create_introducer_clients] *)

Lemma mapM_Ok_length {A B} (f : A → result B) (l : list A) (bs : list B) :
  mapM f l = Ok bs → List.length bs = List.length l.
Proof.
  revert bs. induction l as [|a r IH]; intros bs; simpl.
  - by intros [= <-].
  - intros Hrun. bind_inv_as Hrun b Hb. bind_inv_as Hrun bs' Hbs.
    injection Hrun as <-. simpl. by rewrite (IH bs').
Qed.

Lemma mapM_Ok_In {A B} (f : A → result B) (l : list A) (bs : list B) :
  mapM f l = Ok bs →
  (∀ a, In a l → ∃ b, f a = Ok b ∧ In b bs)
  ∧ (∀ b, In b bs → ∃ a, In a l ∧ f a = Ok b).
Proof.
  revert bs. induction l as [|a r IH]; intros bs; simpl.
  - intros [= <-]. split; intros ? [].
  - intros Hrun. bind_inv_as Hrun b Hb. bind_inv_as Hrun bs' Hbs.
    injection Hrun as <-. destruct (IH bs' Hbs) as [Hl Hr]. split.
    + intros a' [<-|Ha'].
      * exists b. split; [done|by left].
      * destruct (Hl a' Ha') as (b' & ? & ?). exists b'. split; [done|by right].
    + intros b' [<-|Hb'].
      * exists a. split; [by left|done].
      * destruct (Hr b' Hb') as (a' & ? & ?). exists a'. split; [by right|done].
Qed.

Lemma mapM_all_Ok {A B} (f : A → result B) (l : list A) :
  (∀ a, In a l → ∃ b, f a = Ok b) → ∃ bs, mapM f l = Ok bs.
Proof.
  induction l as [|a r IH]; intros Hall; simpl; [eauto|].
  destruct (Hall a) as [b ->]; [by left|].
  destruct IH as [bs ->]; [intros a' Ha'; apply Hall; by right|].
  simpl. eauto.
Qed.

(** X6: what [create_introducer_clients] refuses.  An [introducers.yaml]
    that names an introducer "default" is a [ValueError], whatever
    [tahoe.cfg] says; so is [introducer.furl = None] in [tahoe.cfg]; an
    empty [introducers.yaml] or one that cannot be opened is an error too,
    and only a missing file counts as no introducers: a node with neither
    the file nor a furl gets the empty list. *)
Theorem create_introducer_clients_refusals {app : Allmydata} (config : Config.t)
    (nickname : string) :
  (∀ m, is_Some (m !! "default") →
        ∃ msg, create_introducer_clients config (yaml_document (Some m)) nickname
               = Raise (ValueError msg))
  ∧ (∀ yaml,
       yaml = yaml_missing ∨ yaml = yaml_document None
       ∨ (∃ m, yaml = yaml_document (Some m) ∧ m !! "default" = None) →
       Config.lookup config "client" "introducer.furl" = Some "None" →
       ∃ msg, create_introducer_clients config yaml nickname
              = Raise (ValueError msg))
  ∧ raises (create_introducer_clients config yaml_empty nickname)
  ∧ raises (create_introducer_clients config yaml_unreadable nickname)
  ∧ (Config.lookup config "client" "introducer.furl" = None
     ∨ Config.lookup config "client" "introducer.furl" = Some "" →
     create_introducer_clients config yaml_missing nickname = Ok []).
Proof.
  split_and!.
  - intros m Hdefault. unfold create_introducer_clients. simpl.
    rewrite bool_decide_eq_true_2; [|done]. eauto.
  - intros yaml Hyaml Hfurl.
    assert (∃ m : gmap string (option string),
      m !! "default" = None
      ∧ create_introducer_clients config yaml nickname
        = create_introducer_clients config (yaml_document (Some m)) nickname)
      as (m & Hm & ->).
    { destruct Hyaml as [->|[->|(m & -> & Hm)]];
        [exists ∅|exists ∅|exists m]; by split. }
    unfold create_introducer_clients, Config.get_config. simpl.
    rewrite bool_decide_eq_false_2; [|rewrite Hm; by intros [? ?]].
    rewrite Hfurl. simpl. eauto.
  - eexists. reflexivity.
  - eexists. reflexivity.
  - intros Hfurl. unfold create_introducer_clients, Config.get_config. simpl.
    rewrite bool_decide_eq_false_2; [|rewrite lookup_empty; by intros [? ?]].
    destruct Hfurl as [->| ->]; simpl; by rewrite map_to_list_empty.
Qed.

Lemma create_introducer_clients_refusals_witness :
  (∃ msg,
     create_introducer_clients (app := Sample.allmydata)
       (config (Sample.client [] [] true))
       (yaml_document (Some {["default" := Some "pb://tub@host/introducer"]}))
       "node" = Raise (ValueError msg))
  ∧ create_introducer_clients (app := Sample.allmydata)
      (config (Sample.client [("client", "introducer.furl", "")] [] true))
      yaml_missing "node" = Ok [].
Proof.
  destruct (create_introducer_clients_refusals (app := Sample.allmydata)
    (config (Sample.client [] [] true)) "node") as (Hdefault & _).
  destruct (create_introducer_clients_refusals (app := Sample.allmydata)
    (config (Sample.client [("client", "introducer.furl", "")] [] true)) "node")
    as (_ & _ & _ & _ & Hnone).
  split.
  - apply Hdefault. rewrite lookup_singleton_eq. eauto.
  - apply Hnone. right. reflexivity.
Defined.

(** X7: with a usable [introducers.yaml] (or none), whose pet names and
    furls are ASCII, and a usable [introducer.furl] in [tahoe.cfg],
    [create_introducer_clients] builds one client for every introducer of
    the file and one more, for the furl of [tahoe.cfg], whose cache is
    [private/introducer_default_cache.yaml]; each client of the result comes
    from one entry, with the cache file named after its pet name.  A pet
    name that is not ASCII makes the call raise. *)
Theorem create_introducer_clients_builds_all {app : Allmydata} (config : Config.t)
    (yaml : introducers_yaml) (m : gmap string (option string))
    (nickname furl : string) :
  yaml = yaml_document (Some m) ∨ (m = ∅ ∧ (yaml = yaml_missing ∨ yaml = yaml_document None)) →
  m !! "default" = None →
  Config.lookup config "client" "introducer.furl" = Some furl →
  furl ≠ "None" → furl ≠ EmptyString →
  Config.contains_unescaped_hash furl = false →
  Py.all_chars Py.is_ascii furl = true →
  ((∀ petname entry, m !! petname = Some entry →
      Py.all_chars Py.is_ascii petname = true
      ∧ ∃ f, entry = Some f ∧ Py.all_chars Py.is_ascii f = true) →
   ∃ ics,
     create_introducer_clients config yaml nickname = Ok ics
     ∧ List.length ics = S (size m)
     ∧ (∃ ic, In ic ics ∧ introducer_furl ic = furl
              ∧ cache_filepath ic
                = Config.get_private_path config "introducer_default_cache.yaml")
     ∧ (∀ petname f, m !! petname = Some (Some f) →
          ∃ ic, In ic ics ∧ introducer_furl ic = f
                ∧ cache_filepath ic
                  = Config.get_private_path config
                      ("introducer_" +:+ petname +:+ "_cache.yaml"))
     ∧ (∀ ic, In ic ics →
          ic_nickname ic = nickname
          ∧ oldest_supported ic = _Client.OLDEST_SUPPORTED_VERSION
          ∧ ∃ petname,
              (<["default" := Some furl]> m) !! petname
              = Some (Some (introducer_furl ic))
              ∧ cache_filepath ic
                = Config.get_private_path config
                    ("introducer_" +:+ petname +:+ "_cache.yaml")))
  ∧ (∀ petname entry, m !! petname = Some entry →
       Py.all_chars Py.is_ascii petname = false →
       raises (create_introducer_clients config yaml nickname)).
Proof.
  intros Hyaml Hdefault Hfurl HNone Hempty Hhash Hascii.
  assert (create_introducer_clients config yaml nickname
          = mapM (make_introducer_client config nickname)
              (map_to_list (<["default" := Some furl]> m))) as ->.
  { assert (create_introducer_clients config yaml nickname
            = create_introducer_clients config (yaml_document (Some m)) nickname)
      as ->.
    { by destruct Hyaml as [->|[-> [->| ->]]]. }
    unfold create_introducer_clients, Config.get_config. simpl.
    rewrite bool_decide_eq_false_2; [|rewrite Hdefault; by intros [? ?]].
    rewrite Hfurl.
    change (Config.is_furl_option "introducer.furl") with true.
    rewrite Hhash. simpl.
    destruct (String.eqb_spec furl "None"); [done|].
    by destruct furl. }
  split.
  - intros Hentries.
    assert (∀ petname f, (<["default" := Some furl]> m) !! petname = Some (Some f) →
      make_introducer_client config nickname (petname, Some f)
      = Ok {| introducer_furl := f; ic_nickname := nickname;
              my_version := __full_version__;
              oldest_supported := _Client.OLDEST_SUPPORTED_VERSION;
              cache_filepath :=
                Config.get_private_path config
                  ("introducer_" +:+ petname +:+ "_cache.yaml") |}) as Hmake.
    { intros petname f Hlookup. unfold make_introducer_client.
      assert (Py.all_chars Py.is_ascii petname = true
              ∧ Py.all_chars Py.is_ascii f = true) as [Hpetname Hf].
      { destruct (decide (petname = "default")) as [->|Hne].
        - rewrite lookup_insert_eq in Hlookup. by injection Hlookup as <-.
        - rewrite lookup_insert_ne in Hlookup; [|done].
          destruct (Hentries _ _ Hlookup) as (? & f' & [= <-] & ?). done. }
      unfold Py.format_name, Py.encode_ascii. rewrite Hpetname. simpl.
      by rewrite Hf. }
    assert (∀ petname entry, (<["default" := Some furl]> m) !! petname = Some entry →
      ∃ f, entry = Some f) as Hsome.
    { intros petname entry Hlookup.
      destruct (decide (petname = "default")) as [->|Hne].
      - rewrite lookup_insert_eq in Hlookup. injection Hlookup as <-. eauto.
      - rewrite lookup_insert_ne in Hlookup; [|done].
        destruct (Hentries _ _ Hlookup) as (_ & f & -> & _). eauto. }
    destruct (mapM_all_Ok (make_introducer_client config nickname)
                (map_to_list (<["default" := Some furl]> m))) as [ics Hics].
    { intros [petname entry] Hin%list_elem_of_In%elem_of_map_to_list.
      destruct (Hsome _ _ Hin) as [f ->]. rewrite (Hmake _ _ Hin). eauto. }
    exists ics. split; [done|].
    destruct (mapM_Ok_In _ _ _ Hics) as [Hall Hfrom].
    split_and!.
    + rewrite (mapM_Ok_length _ _ _ Hics), length_map_to_list.
      by rewrite map_size_insert_None.
    + destruct (Hall ("default", Some furl)) as (ic & Hic & Hin).
      { apply list_elem_of_In, elem_of_map_to_list, lookup_insert_eq. }
      rewrite Hmake in Hic; [|apply lookup_insert_eq]. injection Hic as <-.
      eexists. split; [exact Hin|]. done.
    + intros petname f Hlookup.
      assert ((<["default" := Some furl]> m) !! petname = Some (Some f)) as Hlookup'.
      { rewrite lookup_insert_ne; [done|]. intros <-. congruence. }
      destruct (Hall (petname, Some f)) as (ic & Hic & Hin).
      { by apply list_elem_of_In, elem_of_map_to_list. }
      rewrite (Hmake _ _ Hlookup') in Hic. injection Hic as <-.
      eexists. split; [exact Hin|]. done.
    + intros ic Hin. destruct (Hfrom ic Hin) as ([petname entry] & Hitem & Hic).
      apply list_elem_of_In, elem_of_map_to_list in Hitem.
      destruct (Hsome _ _ Hitem) as [f ->].
      rewrite (Hmake _ _ Hitem) in Hic. injection Hic as <-. simpl.
      split_and!; [done..|]. by exists petname.
  - intros petname entry Hlookup Hbad.
    destruct (mapM _ _) as [ics|e] eqn:Hics; [|by exists e].
    destruct (mapM_Ok_In _ _ _ Hics) as [Hall _].
    destruct (Hall (petname, entry)) as (ic & Hic & _).
    { apply list_elem_of_In, elem_of_map_to_list.
      rewrite lookup_insert_ne; [done|]. intros <-. congruence. }
    unfold make_introducer_client, Py.format_name in Hic.
    rewrite Hbad in Hic. discriminate Hic.
Qed.

Lemma create_introducer_clients_builds_all_witness :
  let config :=
    config (Sample.client
              [("client", "introducer.furl", "pb://tub@host/introducer")] [] true) in
  let m : gmap string (option string) :=
    {["backup" := Some "pb://tub2@host2/introducer"]} in
  ∃ ics ic,
    create_introducer_clients (app := Sample.allmydata) config
      (yaml_document (Some m)) "node" = Ok ics
    ∧ List.length ics = 2%nat
    ∧ In ic ics
    ∧ introducer_furl ic = "pb://tub2@host2/introducer"
    ∧ cache_filepath ic = "/node/private/introducer_backup_cache.yaml".
Proof.
  intros config m.
  destruct (create_introducer_clients_builds_all (app := Sample.allmydata)
    config (yaml_document (Some m)) m "node" "pb://tub@host/introducer")
    as [Hbuilds _].
  - by left.
  - reflexivity.
  - reflexivity.
  - discriminate.
  - discriminate.
  - reflexivity.
  - reflexivity.
  - destruct Hbuilds as (ics & Hrun & Hlength & _ & Hfile & _).
    + intros petname entry Hlookup.
      apply lookup_singleton_Some in Hlookup as [<- <-].
      split; [reflexivity|]. eexists. split; reflexivity.
    + destruct (Hfile "backup" "pb://tub2@host2/introducer" eq_refl)
        as (ic & Hin & Hfurl & Hcache).
      exists ics, ic. split_and!; [exact Hrun|exact Hlength|exact Hin|exact Hfurl|].
      exact Hcache.
Defined.

(** ** More on [init_storage] *)

Lemma _init_permutation_seed_persisted {env : StorageEnvironment}
    (self self' : Client) (ss : StorageServer) (seed : string) :
  _Client._init_permutation_seed self ss = Ok (seed, self') →
  Config.get_config_from_file (config self') "permutation-seed" = Some seed
  ∧ ∃ files,
      self' = set_config self
                (Config.mk (Config.basedir (config self))
                   (Config.entries (config self)) files
                   (Config.private_files (config self))).
Proof.
  unfold _Client._init_permutation_seed.
  destruct (Py.truthy _) eqn:Hseed; simpl.
  - intros [= <- <-].
    unfold Config.get_config_from_file in *.
    destruct (Config.files (config self) !! "permutation-seed") as [text|];
      [|done].
    simpl. rewrite strip_idem. split; [done|].
    exists (Config.files (config self)). by destruct self as [[]].
  - intros Hrun. bind_inv_as Hrun fresh Hfresh. injection Hrun as <- <-.
    split; [|by eexists].
    unfold Config.get_config_from_file. simpl.
    by rewrite lookup_insert_eq; simpl; rewrite strip_newline.
Qed.

Section InitStorageMore.
Context {parsers : StorageParsers} {env : StorageEnvironment}.

(** X8: the seed a storage node announces is the seed it has on record.
    When [init_storage] sets up the storage server, it publishes one and the
    same announcement to every introducer client; the
    [permutation-seed-base32] of that announcement is what
    [get_config_from_file("permutation-seed")] returns from then on; the
    FURL of the announcement is the one the tub handed out and wrote to
    [private/storage.furl], the only private file that changes; and
    [tahoe.cfg] is as it was. *)
Theorem init_storage_announces_recorded_seed (self self' : Client) :
  _Client.init_storage self = Ok self' →
  Config.get_config_bool (config self) "storage" "enabled" true = Ok true →
  ∃ ss ann,
    services self' = (services self ++ [service_storage ss])%list
    ∧ my_nodeid ss = nodeid self
    ∧ published self'
      = (published self
         ++ List.map (λ ic, (ic, "storage", ann)) (introducer_clients self))%list
    ∧ anonymous_storage_FURL ann
      = registerReference ss (Config.get_private_path (config self) "storage.furl")
    ∧ Config.get_config_from_file (config self') "permutation-seed"
      = Some (permutation_seed_base32 ann)
    ∧ Config.entries (config self') = Config.entries (config self)
    ∧ Config.private_files (config self')
      = <["storage.furl" := anonymous_storage_FURL ann +:+ Py.newline]>
          (Config.private_files (config self)).
Proof.
  unfold _Client.init_storage. intros Hrun Henabled.
  rewrite Henabled in Hrun. simpl in Hrun.
  destruct (negb (_Client._is_tub_listening self)); [discriminate|].
  do 13 bind_inv Hrun.
  bind_inv_as Hrun seeded Hseeded. destruct seeded as [seed self1].
  injection Hrun as <-.
  apply _init_permutation_seed_persisted in Hseeded as (Hfile & files & ->).
  eexists _, _. split_and!; try reflexivity. exact Hfile.
Qed.

(** X9: how the expiration settings reach the storage server.  When
    [init_storage] sets the server up: with expiration enabled the mode
    must be configured, and it is the mode of the server; with expiration
    disabled a missing mode is "age"; the server has a cut-off date exactly
    when its mode is "cutoff-date", and then [expire.cutoff_date] is
    configured and the date is what [parse_date] makes of it; the reserved
    space is 0 unless [parse_abbreviated_size] found a size. *)
Theorem init_storage_expiration (self self' : Client) :
  _Client.init_storage self = Ok self' →
  Config.get_config_bool (config self) "storage" "enabled" true = Ok true →
  ∃ ss,
    services self' = (services self ++ [service_storage ss])%list
    ∧ Config.get_config_bool (config self) "storage" "expire.enabled" false
      = Ok (expiration_enabled ss)
    ∧ (expiration_enabled ss = true →
       Config.lookup (config self) "storage" "expire.mode"
       = Some (expiration_mode ss))
    ∧ (Config.lookup (config self) "storage" "expire.mode" = None →
       expiration_enabled ss = false ∧ expiration_mode ss = "age")
    ∧ (is_Some (expiration_cutoff_date ss) ↔ expiration_mode ss = "cutoff-date")
    ∧ (∀ date, expiration_cutoff_date ss = Some date →
         ∃ text,
           Config.lookup (config self) "storage" "expire.cutoff_date" = Some text
           ∧ parse_date text = Ok date)
    ∧ (∃ size,
         parse_abbreviated_size
           (Config.lookup (config self) "storage" "reserved_space") = Ok size
         ∧ reserved_space ss = default 0 size).
Proof.
  unfold _Client.init_storage. intros Hrun Henabled.
  rewrite Henabled in Hrun. simpl in Hrun.
  destruct (negb (_Client._is_tub_listening self)); [discriminate|].
  bind_inv_as Hrun readonly Hreadonly.
  bind_inv_as Hrun raw_storedir Hraw. bind_inv_as Hrun config_storedir Hdecode.
  bind_inv_as Hrun data Hdata. bind_inv_as Hrun reserved Hreserved.
  bind_inv_as Hrun discard Hdiscard. bind_inv_as Hrun expire Hexpire.
  bind_inv_as Hrun mode Hmode. bind_inv_as Hrun old_text Hold.
  bind_inv_as Hrun o_l_d Hparsed. bind_inv_as Hrun cutoff_date Hcutoff.
  bind_inv_as Hrun immutable Himmutable. bind_inv_as Hrun mutable Hmutable.
  bind_inv_as Hrun seeded Hseeded. destruct seeded as [seed self1].
  injection Hrun as <-.
  apply _init_permutation_seed_frame in Hseeded as [cfg ->].
  assert (Config.lookup (config self) "storage" "expire.mode"
          = (if expire then Some mode
             else Config.lookup (config self) "storage" "expire.mode")
          ∧ (Config.lookup (config self) "storage" "expire.mode" = None →
             expire = false ∧ mode = "age")) as [Hlookup Hdefault].
  { unfold Config.get_config_required, Config.get_config in Hmode.
    change (Config.is_furl_option "expire.mode") with false in Hmode.
    destruct expire, (Config.lookup (config self) "storage" "expire.mode");
      simpl in Hmode; try discriminate; injection Hmode as <-; by split. }
  eexists. split; [reflexivity|]. simpl. split_and!.
  - done.
  - intros ->. done.
  - done.
  - destruct (String.eqb_spec mode "cutoff-date") as [->|Hother].
    + bind_inv_as Hcutoff text Htext.
      apply fmap_Ok_inv in Hcutoff as (date & _ & ->). split; eauto.
    + injection Hcutoff as <-. split; [by intros [? ?]|done].
  - intros date ->.
    destruct (String.eqb_spec mode "cutoff-date") as [->|Hother]; [|done].
    bind_inv_as Hcutoff text Htext.
    apply fmap_Ok_inv in Hcutoff as (date' & Hdate & [= ->]).
    exists text. split; [|done].
    unfold Config.get_config_required in Htext.
    change (Config.is_furl_option "expire.cutoff_date") with false in Htext.
    destruct (Config.lookup _ _ _); [|done]. simpl in Htext. congruence.
  - exists reserved. split; [|by destruct reserved].
    unfold Config.get_config in Hdata.
    change (Config.is_furl_option "reserved_space") with false in Hdata.
    destruct (Config.lookup _ _ _); simpl in Hdata; injection Hdata as <-; done.
Qed.

End InitStorageMore.

Lemma init_storage_announces_recorded_seed_witness :
  let self := Sample.client [] [] true in
  ∃ self' ann,
    _Client.init_storage (parsers := Sample.storage_parsers)
      (env := Sample.used_disk) self = Ok self'
    ∧ published self' = [("introducer", "storage", ann)]
    ∧ Config.get_config_from_file (config self') "permutation-seed"
      = Some (permutation_seed_base32 ann).
Proof.
  intros self.
  assert (∃ self', _Client.init_storage (parsers := Sample.storage_parsers)
            (env := Sample.used_disk) self = Ok self') as [self' Hrun].
  { vm_compute. eexists. reflexivity. }
  destruct (init_storage_announces_recorded_seed
    (parsers := Sample.storage_parsers) (env := Sample.used_disk)
    self self' Hrun eq_refl) as (ss & ann & _ & _ & Hpublished & _ & Hseed & _).
  exists self', ann. split; [exact Hrun|]. split; [exact Hpublished | exact Hseed].
Defined.

Lemma init_storage_expiration_witness :
  let self :=
    Sample.client
      [("storage", "expire.enabled", "true");
       ("storage", "expire.mode", "cutoff-date");
       ("storage", "expire.cutoff_date", "20200101")] [] true in
  ∃ self' ss,
    _Client.init_storage (parsers := Sample.storage_parsers)
      (env := Sample.empty_disk) self = Ok self'
    ∧ services self' = [service_storage ss]
    ∧ (is_Some (expiration_cutoff_date ss) ↔ expiration_mode ss = "cutoff-date").
Proof.
  intros self.
  assert (∃ self', _Client.init_storage (parsers := Sample.storage_parsers)
            (env := Sample.empty_disk) self = Ok self') as [self' Hrun].
  { vm_compute. eexists. reflexivity. }
  destruct (init_storage_expiration (parsers := Sample.storage_parsers)
    (env := Sample.empty_disk) self self' Hrun eq_refl)
    as (ss & Hservices & _ & _ & _ & Hcutoff & _).
  exists self', ss. split; [exact Hrun|]. split; [exact Hservices | exact Hcutoff].
Defined.

(** ** More on [init_client] *)

Section InitClientMore.
Context {pylib : PythonLibrary} {ifaces : Interfaces}.

Lemma bind_Raise_assoc {A B C} (m : result A) (f : A → result B)
    (g : B → result C) (e : exn) :
  m ≫= f = Raise e → m ≫= (λ a, f a ≫= g) = Raise e.
Proof.
  destruct m as [a|e']; simpl; [by intros ->|]. by intros [= ->].
Qed.

Lemma get_config_int_raises (cfg : Config.t) (option_name text : string)
    (default : Z) (e : exn) :
  Config.is_furl_option option_name = false →
  Config.lookup cfg "client" option_name = Some text →
  Py.int text = Raise e →
  Config.get_config cfg "client" option_name (Py.Int default) Py.Str ≫= Py.int_
  = Raise e.
Proof.
  intros Hfurl Hlookup Hint. unfold Config.get_config.
  by rewrite Hlookup, Hfurl; simpl; rewrite Hint.
Qed.

(** X10: text that is not an integer in [shares.needed], [shares.total] or
    [shares.happy] makes [init_client] raise the error of [int()]: for
    [shares.needed] as soon as the [helper.furl] lookup has passed, for
    [shares.total] when [shares.needed] was accepted, and for
    [shares.happy] when both were. *)
Theorem init_client_rejects_non_integers (self : Client)
    (helper_furl : option string) (text : string) (e : exn) :
  let cfg := config self in
  let DEP := encoding_params self in
  Config.get_config cfg "client" "helper.furl" None Some = Ok helper_furl →
  Py.int text = Raise e →
  (Config.lookup cfg "client" "shares.needed" = Some text →
   _Client.init_client self = Raise e)
  ∧ (∀ needed,
       Config.get_config cfg "client" "shares.needed"
         (Py.Int (EncodingParameters.k DEP)) Py.Str ≫= Py.int_ = Ok needed →
       Config.lookup cfg "client" "shares.total" = Some text →
       _Client.init_client self = Raise e)
  ∧ (∀ needed total,
       Config.get_config cfg "client" "shares.needed"
         (Py.Int (EncodingParameters.k DEP)) Py.Str ≫= Py.int_ = Ok needed →
       Config.get_config cfg "client" "shares.total"
         (Py.Int (EncodingParameters.n DEP)) Py.Str ≫= Py.int_ = Ok total →
       Config.lookup cfg "client" "shares.happy" = Some text →
       _Client.init_client self = Raise e).
Proof.
  intros cfg DEP Hfurl Hint. split_and!.
  - intros Hlookup.
    pose proof (get_config_int_raises cfg "shares.needed" text
                  (EncodingParameters.k DEP) e eq_refl Hlookup Hint) as Hraise.
    unfold _Client.init_client. fold cfg. rewrite Hfurl. simpl. fold DEP.
    by apply bind_Raise_assoc.
  - intros needed Hneeded Hlookup.
    pose proof (get_config_int_raises cfg "shares.total" text
                  (EncodingParameters.n DEP) e eq_refl Hlookup Hint) as Hraise.
    bind_inv_as Hneeded v1 Hv1.
    unfold _Client.init_client. fold cfg. rewrite Hfurl. simpl. fold DEP.
    rewrite Hv1. simpl. rewrite Hneeded. simpl.
    by apply bind_Raise_assoc.
  - intros needed total Hneeded Htotal Hlookup.
    pose proof (get_config_int_raises cfg "shares.happy" text
                  (EncodingParameters.happy DEP) e eq_refl Hlookup Hint) as Hraise.
    bind_inv_as Hneeded v1 Hv1. bind_inv_as Htotal v2 Hv2.
    unfold _Client.init_client. fold cfg. rewrite Hfurl. simpl. fold DEP.
    rewrite Hv1. simpl. rewrite Hneeded. simpl.
    rewrite Hv2. simpl. rewrite Htotal. simpl.
    by apply bind_Raise_assoc.
Qed.

(** X11: what a successful [init_client] does besides storing the encoding
    parameters.  It writes a fresh token to [private/api_auth_token],
    whatever that file held; it leaves [tahoe.cfg], the other private files
    and the files of the node directory alone; it adds the terminator and
    then the uploader to the services; the uploader has no helper exactly
    when [helper.furl] is missing, empty or the text "None"; and nothing is
    published and no magic folder is started. *)
Theorem init_client_effects (self self' : Client) :
  _Client.init_client self = Ok self' →
  Config.private_files (config self')
  = <["api_auth_token" := urlsafe_b64encode (urandom 32) +:+ Py.newline]>
      (Config.private_files (config self))
  ∧ Config.entries (config self') = Config.entries (config self)
  ∧ Config.files (config self') = Config.files (config self)
  ∧ published self' = published self
  ∧ _magic_folders self' = _magic_folders self
  ∧ ∃ helper_furl,
      services self'
      = (services self ++ [service_terminator; service_uploader helper_furl])%list
      ∧ (helper_furl = None
         ↔ Config.lookup (config self) "client" "helper.furl" = None
           ∨ Config.lookup (config self) "client" "helper.furl" = Some ""
           ∨ Config.lookup (config self) "client" "helper.furl" = Some "None")
      ∧ (∀ furl, helper_furl = Some furl →
           Config.lookup (config self) "client" "helper.furl" = Some furl).
Proof.
  unfold _Client.init_client. intros Hrun.
  bind_inv_as Hrun raw_furl Hfurl.
  bind_inv_as Hrun v1 Hv1. bind_inv_as Hrun needed Hneeded.
  bind_inv_as Hrun v2 Hv2. bind_inv_as Hrun total Htotal.
  bind_inv_as Hrun v3 Hv3. bind_inv_as Hrun happy Hhappy.
  match type of Hrun with
  | _Client.init_nodemaker ?c ?b = _ =>
      destruct (init_nodemaker_returns c b) as [version Hmaker]
  end.
  rewrite Hmaker in Hrun. injection Hrun as <-. simpl.
  split_and!; try reflexivity.
  eexists. split; [by rewrite <- app_assoc|].
  unfold Config.get_config in Hfurl.
  destruct (Config.lookup (config self) "client" "helper.furl") as [furl|];
    [|injection Hfurl as <-; split; [naive_solver|done]].
  destruct (_ && _); [discriminate|]. injection Hfurl as <-.
  destruct (String.eqb_spec furl "None") as [->|HNone]; simpl;
    [split; [naive_solver|done]|].
  destruct (String.eqb_spec furl "") as [->|Hempty]; simpl;
    [split; [naive_solver|done]|].
  split; [|by intros ? [= ->]].
  split; [done|]. intros [?|[[= ?]|[= ?]]]; done.
Qed.

End InitClientMore.

Lemma init_client_rejects_non_integers_witness :
  let self := Sample.client [("client", "shares.needed", "three")] [] true in
  ∃ e,
    Py.int "three" = Raise e
    ∧ _Client.init_client (pylib := Sample.python_library)
        (ifaces := Sample.interfaces) self = Raise e.
Proof.
  intros self.
  assert (∃ e, Py.int "three" = Raise e) as [e Hint].
  { eexists. reflexivity. }
  exists e. split; [exact Hint|].
  exact (proj1 (init_client_rejects_non_integers
    (pylib := Sample.python_library) (ifaces := Sample.interfaces)
    self None "three" e eq_refl Hint) eq_refl).
Defined.

Lemma init_client_effects_witness :
  let self :=
    Sample.client [("client", "helper.furl", "None")] [] true in
  ∃ self',
    _Client.init_client (pylib := Sample.python_library)
      (ifaces := Sample.interfaces) self = Ok self'
    ∧ services self' = [service_terminator; service_uploader None].
Proof.
  intros self.
  assert (∃ self', _Client.init_client (pylib := Sample.python_library)
            (ifaces := Sample.interfaces) self = Ok self') as [self' Hrun].
  { vm_compute. eexists. reflexivity. }
  destruct (init_client_effects (pylib := Sample.python_library)
    (ifaces := Sample.interfaces) self self' Hrun)
    as (_ & _ & _ & _ & _ & helper_furl & Hservices & Hnone & _).
  exists self'. split; [exact Hrun|].
  rewrite Hservices. simpl.
  rewrite (proj2 Hnone (or_intror (or_intror eq_refl))). reflexivity.
Defined.

(** ** More on [init_magic_folder] *)

Section InitMagicFolderMore.
Context {frontend : MagicFolderFrontend}.

(** X12: the gates of [init_magic_folder].  An enabled [drop_upload]
    section is refused with [OldConfigOptionError] whatever the
    [magic_folder] section says, and when neither section is enabled the
    node is left as it is. *)
Theorem init_magic_folder_gates (self : Client) :
  (Config.get_config_bool (config self) "drop_upload" "enabled" false = Ok true →
   ∃ msg, _Client.init_magic_folder self = Raise (OldConfigOptionError msg))
  ∧ (Config.get_config_bool (config self) "drop_upload" "enabled" false = Ok false →
     Config.get_config_bool (config self) "magic_folder" "enabled" false = Ok false →
     _Client.init_magic_folder self = Ok self)
  ∧ (Config.lookup (config self) "drop_upload" "enabled" = None →
     Config.lookup (config self) "magic_folder" "enabled" = None →
     _Client.init_magic_folder self = Ok self).
Proof.
  unfold _Client.init_magic_folder. split_and!.
  - intros ->. simpl. eauto.
  - by intros -> ->.
  - unfold Config.get_config_bool. by intros -> ->.
Qed.




End InitMagicFolderMore.

Lemma init_magic_folder_gates_witness :
  (∃ msg,
     _Client.init_magic_folder (frontend := Sample.one_magic_folder)
       (Sample.client [("drop_upload", "enabled", "true")] [] true)
     = Raise (OldConfigOptionError msg))
  ∧ _Client.init_magic_folder (frontend := Sample.one_magic_folder)
      (Sample.client [] [] true) = Ok (Sample.client [] [] true).
Proof.
  split.
  - exact (proj1 (init_magic_folder_gates (frontend := Sample.one_magic_folder)
      (Sample.client [("drop_upload", "enabled", "true")] [] true)) eq_refl).
  - exact (proj2 (proj2 (init_magic_folder_gates
      (frontend := Sample.one_magic_folder) (Sample.client [] [] true)))
      eq_refl eq_refl).
Defined.


(** ** The options the methods read *)

Lemma declared_in_client_sections (common : gmap string (list string))
    (section option_name : string) (options : list string) :
  (list_to_map client_config_sections : gmap string (list string)) !! section
  = Some options →
  In option_name options →
  declared common section option_name.
Proof.
  intros Hsection Hin. exists options. split; [|done].
  by apply lookup_union_Some_l.
Qed.

Section ReadsDeclaredOptions.
Context {parsers : StorageParsers} {env : StorageEnvironment}
        {pylib : PythonLibrary} {ifaces : Interfaces}
        {frontend : MagicFolderFrontend}.

Lemma bind_fmap_ext {A B C} (m : result A) (f : A → result C)
    (h : A → result B) (g : B → C) :
  (∀ a, f a = g <$> h a) → m ≫= f = g <$> (m ≫= h).
Proof. intros Hext. destruct m as [a|e]; simpl; [apply Hext|done]. Qed.

Lemma _init_permutation_seed_with_entries (self : Client) (ss : StorageServer)
    (entries : gmap (string * string) string) :
  _Client._init_permutation_seed (with_entries self entries) ss
  = (λ r, (r.1, with_entries r.2 entries))
    <$> _Client._init_permutation_seed self ss.
Proof.
  unfold _Client._init_permutation_seed, Config.get_config_from_file.
  cbn [with_entries set_config config Config.files].
  destruct (Py.truthy _); [reflexivity|].
  cbn [negb]. destruct (have_shares ss); reflexivity.
Qed.

Lemma init_storage_with_entries (self : Client)
    (entries : gmap (string * string) string) :
  (∀ option_name,
     In option_name
       ["debug_discard"; "enabled"; "expire.cutoff_date"; "expire.enabled";
        "expire.immutable"; "expire.mode"; "expire.mutable";
        "expire.override_lease_duration"; "readonly"; "reserved_space";
        "storage_dir"] →
     entries !! ("storage", option_name)
     = Config.entries (config self) !! ("storage", option_name)) →
  _Client.init_storage (with_entries self entries)
  = (λ self', with_entries self' entries) <$> _Client.init_storage self.
Proof.
  intros Hsame.
  unfold _Client.init_storage, Config.get_config_bool,
    Config.get_config, Config.get_config_required, Config.lookup.
  cbv zeta.
  cbn [with_entries set_config config Config.entries].
  rewrite !Hsame by (simpl; tauto).
  apply bind_fmap_ext. intros enabled.
  destruct enabled; cbn [negb]; [|reflexivity].
  change (_Client._is_tub_listening (with_entries self entries))
    with (_Client._is_tub_listening self).
  destruct (_Client._is_tub_listening self); cbn [negb]; [|reflexivity].
  do 13 (apply bind_fmap_ext; intros ?).
  match goal with
  | |- _Client._init_permutation_seed ?c ?ss ≫= _
       = _ <$> (_Client._init_permutation_seed ?c0 ?ss0 ≫= _) =>
      change c with (with_entries c0 entries); change ss with ss0;
      rewrite (_init_permutation_seed_with_entries c0 ss0 entries);
      destruct (_Client._init_permutation_seed c0 ss0) as [[seed self1]|e]
  end; reflexivity.
Qed.

Lemma init_client_with_entries (self : Client)
    (entries : gmap (string * string) string) :
  (∀ option_name,
     In option_name
       ["helper.furl"; "mutable.format"; "shares.happy"; "shares.needed";
        "shares.total"] →
     entries !! ("client", option_name)
     = Config.entries (config self) !! ("client", option_name)) →
  _Client.init_client (with_entries self entries)
  = (λ self', with_entries self' entries) <$> _Client.init_client self.
Proof.
  intros Hsame.
  unfold _Client.init_client, _Client.init_nodemaker, Config.get_config,
    Config.lookup.
  cbv zeta.
  cbn [with_entries set_config config Config.entries setServiceParent
       set_services set_encoding_params _Client._create_auth_token
       Config.write_private_config encoding_params].
  rewrite !Hsame by (simpl; tauto).
  do 8 (apply bind_fmap_ext; intros ?).
  reflexivity.
Qed.

Lemma start_magic_folders_with_entries (threshold : Z)
    (items : list (string * string)) (self : Client)
    (entries : gmap (string * string) string) :
  _Client.start_magic_folders threshold (with_entries self entries) items
  = (λ self', with_entries self' entries)
    <$> _Client.start_magic_folders threshold self items.
Proof.
  revert self. induction items as [|[name mfc] rest IH]; intros self; [done|].
  simpl. destruct (from_config name mfc) as [s|e]; [|done]. simpl.
  match goal with
  | |- _Client.start_magic_folders _ ?c _ = _ <$> _Client.start_magic_folders _ ?c0 _ =>
      change c with (with_entries c0 entries)
  end.
  apply IH.
Qed.

Lemma init_magic_folder_with_entries (self : Client)
    (entries : gmap (string * string) string) :
  entries !! ("drop_upload", "enabled")
  = Config.entries (config self) !! ("drop_upload", "enabled") →
  entries !! ("magic_folder", "enabled")
  = Config.entries (config self) !! ("magic_folder", "enabled") →
  _Client.init_magic_folder (with_entries self entries)
  = (λ self', with_entries self' entries) <$> _Client.init_magic_folder self.
Proof.
  intros Hdrop Hmagic.
  unfold _Client.init_magic_folder, Config.get_config_bool, Config.lookup.
  cbn [with_entries set_config config Config.entries Config.basedir].
  rewrite Hdrop, Hmagic.
  apply bind_fmap_ext. intros drop_upload.
  destruct drop_upload; [reflexivity|].
  apply bind_fmap_ext. intros enabled.
  destruct enabled; [|reflexivity].
  apply bind_fmap_ext. intros magic_folders.
  apply start_magic_folders_with_entries.
Qed.

(** X14: the three methods read [tahoe.cfg] only through options that
    [_valid_config_sections()] declares.  If another [tahoe.cfg] holds the
    same text for every declared option, then [init_storage], [init_client]
    and [init_magic_folder] behave on it as on the first: they raise the same
    error or return the same node, but for the [tahoe.cfg] it carries. *)
Theorem init_methods_read_declared_options (common : gmap string (list string))
    (self : Client) (entries : gmap (string * string) string) :
  (∀ section option_name, declared common section option_name →
     entries !! (section, option_name)
     = Config.entries (config self) !! (section, option_name)) →
  _Client.init_storage (with_entries self entries)
  = (λ self', with_entries self' entries) <$> _Client.init_storage self
  ∧ _Client.init_client (with_entries self entries)
    = (λ self', with_entries self' entries) <$> _Client.init_client self
  ∧ _Client.init_magic_folder (with_entries self entries)
    = (λ self', with_entries self' entries) <$> _Client.init_magic_folder self.
Proof.
  intros Hagree.
  assert (∀ section option_name options,
    (list_to_map client_config_sections : gmap string (list string)) !! section
  = Some options →
    In option_name options →
    entries !! (section, option_name)
    = Config.entries (config self) !! (section, option_name)) as Hsame.
  { intros section o options Hsection Ho.
    eapply Hagree, declared_in_client_sections; eauto. }
  split_and!.
  - apply init_storage_with_entries. intros o Ho.
    eapply Hsame; [reflexivity|]. simpl in *. tauto.
  - apply init_client_with_entries. intros o Ho.
    eapply Hsame; [reflexivity|]. simpl in *. tauto.
  - apply init_magic_folder_with_entries.
    + eapply Hsame; [reflexivity|]. simpl. tauto.
    + eapply Hsame; [reflexivity|]. simpl. tauto.
Qed.

End ReadsDeclaredOptions.

Lemma init_methods_read_declared_options_witness :
  let self := Sample.client [("storage", "enabled", "false")] [] true in
  let entries : gmap (string * string) string :=
    <[("storage", "colour") := "blue"]> (Config.entries (config self)) in
  (∀ section option_name, declared ∅ section option_name →
     entries !! (section, option_name)
     = Config.entries (config self) !! (section, option_name))
  ∧ _Client.init_storage (parsers := Sample.storage_parsers)
      (env := Sample.empty_disk) (with_entries self entries)
    = Ok (with_entries self entries).
Proof.
  intros self entries.
  assert (∀ section option_name, declared ∅ section option_name →
    entries !! (section, option_name)
    = Config.entries (config self) !! (section, option_name)) as Hagree.
  { intros section o (options & Hsection & Ho).
    apply lookup_insert_ne. intros [= <- <-].
    vm_compute in Hsection. injection Hsection as <-.
    simpl in Ho. repeat (destruct Ho as [Ho|Ho]; [discriminate Ho|]).
    exact Ho. }
  split; [exact Hagree|].
  rewrite (proj1 (init_methods_read_declared_options
    (parsers := Sample.storage_parsers) (env := Sample.empty_disk)
    (pylib := Sample.python_library) (ifaces := Sample.interfaces)
    (frontend := Sample.one_magic_folder) ∅ self entries Hagree)).
  reflexivity.
Defined.
